(** * golf_flip_app: the listing pipeline, embedded and verified

    A shallow embedding of the Python package [golf_flip_app]:
    - [valuation.py]  : cost breakdown and resale estimate of one listing;
    - [seen_store.py] : the SQLite table of listings already processed;
    - [whatsapp.py]   : message formatting and the two-transport notifier;
    - [worker.py]     : one polling cycle over the enabled marketplaces.

    Conventions of the embedding.
    - A listing is a Python [dict]: a finite map from keys to dynamically
      typed values.  An absent key and a key bound to [None] are different
      things and the code treats them differently.
    - A Python [float] is an IEEE-754 binary64 number ([spec_float] at
      precision 53); arithmetic is the correctly rounded one of the
      standard library, [round(x, 2)] is written out below.
    - Strings are byte strings; [str.upper] and [str.lower] act on the
      ASCII letters.
    - Code that can raise returns a [Res]; code with effects (the SQLite
      file, log and network calls) runs in the monad [M] over a [World].
      The world is kept when an exception propagates: rows written before
      a failure stay written.
    - What lives outside the package (regular expressions, JSON and float
      parsing, HTTP, the clock) is gathered in one record [Env].  The
      SQLite file is taken to be readable and writable: an I/O failure of
      [sqlite3] is not part of the model. *)

From Stdlib Require Import ZArith Bool Ascii String List DecimalString.
From Stdlib Require Import Floats.SpecFloat.
From stdpp Require Import base decidable option list strings gmap.

Local Open Scope string_scope.

(** ** Python values and exceptions *)

(** binary64.  The floats of Python are the values [x] with
    [valid_binary F.prec F.emax x = true]; the operations below keep that
    set, and no statement of this file needs the restriction. *)
Abbreviation float := spec_float.

Module F.

Definition prec : Z := 53.
Definition emax : Z := 1024.

Definition add : float -> float -> float := SFadd prec emax.
Definition sub : float -> float -> float := SFsub prec emax.
Definition mul : float -> float -> float := SFmul prec emax.
Definition div : float -> float -> float := SFdiv prec emax.
Definition ltb : float -> float -> bool := SFltb.
Definition leb : float -> float -> bool := SFleb.

(** The double nearest to the fraction [n / d] (ties to even): what the
    Python reader makes of a decimal literal such as [0.05] = 5/100. *)
Definition of_ratio (n : Z) (d : positive) : float :=
  match n with
  | Z0 => S754_zero false
  | Zpos m => div (S754_finite false m 0) (S754_finite false d 0)
  | Zneg m => div (S754_finite true m 0) (S754_finite false d 0)
  end.

Definition of_Z (n : Z) : float := of_ratio n 1.

(** [bool(x)] for a float: every value but the two zeros. *)
Definition truthy (x : float) : bool :=
  match x with
  | S754_zero _ => false
  | _ => true
  end.

(** Nearest integer to [n / d], ties to the even one; [n] is not
    negative. *)
Definition div_half_even (n : Z) (d : positive) : Z :=
  let q := (n / Zpos d)%Z in
  let r := (n mod Zpos d)%Z in
  match (2 * r ?= Zpos d)%Z with
  | Lt => q
  | Gt => (q + 1)%Z
  | Eq => if Z.even q then q else (q + 1)%Z
  end.

(** [round(x, 2)].  CPython prints the exact binary value of [x] with
    two digits after the point, rounding half to even, and reads the
    digits back as the nearest double.  A double with a non-negative
    exponent is an integer and comes back unchanged, and so do the
    infinities and NaN.  The sign survives a result of zero. *)
Definition round2 (x : float) : float :=
  match x with
  | S754_finite s m e =>
      if (0 <=? e)%Z then x
      else
        match div_half_even (Zpos m * 100) (2 ^ Z.to_pos (- e)) with
        | Zpos h => div (S754_finite s h 0) (S754_finite false 100 0)
        | _ => S754_zero s
        end
  | _ => x
  end.

Definition zero : float := S754_zero false.

Definition digits (n : Z) : string := NilZero.string_of_uint (N.to_uint (Z.to_N n)).

(** [|x|] in hundredths, rounded half to even. *)
Definition hundredths (m : positive) (e : Z) : Z :=
  if (0 <=? e)%Z then (Zpos m * 2 ^ e * 100)%Z
  else div_half_even (Zpos m * 100) (2 ^ Z.to_pos (- e)).

(** [format(x, ".2f")] *)
Definition fmt2 (x : float) : string :=
  match x with
  | S754_nan => "nan"
  | S754_infinity s => if s then "-inf" else "inf"
  | S754_zero s => if s then "-0.00" else "0.00"
  | S754_finite s m e =>
      let h := hundredths m e in
      let frac := (h mod 100)%Z in
      ((if s then "-" else "") ++ digits (h / 100) ++ "."
         ++ (if (frac <? 10)%Z then "0" else "") ++ digits frac)%string
  end.

End F.

Inductive PyVal : Type :=
| VNone
| VFloat (x : float)
| VStr (s : string).

Inductive PyExc : Type :=
| TypeError
| AttributeError
| ValueError (msg : string)
| KeyError (key : string)
| OtherError (msg : string).

Inductive Res (A : Type) : Type :=
| Ok (a : A)
| Raise (e : PyExc).
Arguments Ok {A} a.
Arguments Raise {A} e.

Definition res_bind {A B} (r : Res A) (k : A -> Res B) : Res B :=
  match r with
  | Ok a => k a
  | Raise e => Raise e
  end.

Notation "'let!' x ':=' r 'in' k" := (res_bind r (fun x => k))
  (at level 10, x name, r at level 100, k at level 200).

(** [bool(v)] *)
Definition truthy (v : PyVal) : bool :=
  match v with
  | VNone => false
  | VFloat x => F.truthy x
  | VStr s => negb (String.eqb s "")
  end.

(** [a or b] *)
Definition py_or (a b : PyVal) : PyVal := if truthy a then a else b.

(** What the data model allows in a field of a listing: a number or
    nothing, a string or nothing. *)
Definition opt_number (o : option PyVal) : Prop :=
  match o with
  | Some (VStr _) => False
  | _ => True
  end.

Definition opt_text (o : option PyVal) : Prop :=
  match o with
  | Some (VFloat _) => False
  | _ => True
  end.

(** ** Dictionaries *)

Abbreviation Dict := (gmap string PyVal).

(** [d[k]] *)
Definition getitem (d : Dict) (k : string) : Res PyVal :=
  match d !! k with
  | Some v => Ok v
  | None => Raise (KeyError k)
  end.

(** [d.get(k)] *)
Definition dict_get (d : Dict) (k : string) : PyVal :=
  default VNone (d !! k).

(** [d.get(k, dflt)]: the default stands in for an absent key only, a
    key bound to [None] yields [None]. *)
Definition dict_get_or (d : Dict) (k : string) (dflt : PyVal) : PyVal :=
  default dflt (d !! k).

(** ** ASCII case mapping *)

(** [str.upper] and [str.lower] as they act on ASCII text, where they
    map the letters a-z and A-Z and nothing else.  Python maps further
    characters outside ASCII; a property that rests on the mapping of an
    arbitrary text is stated for texts that [str_isascii] accepts. *)

Definition ascii_upper (c : ascii) : ascii :=
  let n := nat_of_ascii c in
  if (97 <=? n)%nat && (n <=? 122)%nat then ascii_of_nat (n - 32) else c.

Definition ascii_lower (c : ascii) : ascii :=
  let n := nat_of_ascii c in
  if (65 <=? n)%nat && (n <=? 90)%nat then ascii_of_nat (n + 32) else c.

Fixpoint str_map (f : ascii -> ascii) (s : string) : string :=
  match s with
  | EmptyString => EmptyString
  | String c s' => String (f c) (str_map f s')
  end.

Definition str_upper : string -> string := str_map ascii_upper.
Definition str_lower : string -> string := str_map ascii_lower.

(** [v.lower()] on a dynamically typed value *)
Definition py_lower (v : PyVal) : Res string :=
  match v with
  | VStr s => Ok (str_lower s)
  | _ => Raise AttributeError
  end.

(** ** Configuration ([settings.py]) *)

(** The fields of the [Settings] dataclass that the pipeline reads. *)
Record Settings : Type := mkSettings {
  ENABLE_EBAY : bool;
  ENABLE_VINTED : bool;
  WA_PHONE_ID : option string;
  WA_TOKEN : option string;
  RECIPIENT_PHONE : option string;
  TWILIO_ACCOUNT_SID : option string;
  TWILIO_AUTH_TOKEN : option string;
  TWILIO_WHATSAPP_FROM : option string;
  PROFIT_MIN : float;
  MARGIN_MIN_PERCENT : float;
  KEYWORDS : string;
  MAX_PRICE : option float;
  REGEX_INCLUDE : option string;
  REGEX_EXCLUDE : option string;
  CURRENCY : string;
  POLL_INTERVAL : Z;
  VALUATION_STRATEGY : string;
  SHIPPING_TABLE_JSON : option string;
  SQLITE_DB : string
}.

(** [bool(o)] for an [Optional[str]] setting: set and not empty. *)
Definition opt_truthy (o : option string) : bool :=
  match o with
  | Some s => negb (String.eqb s "")
  | None => false
  end.

(** ** What the package calls outside itself *)

(** Network, clock and library calls.  The natural number given to the
    network and clock functions is the number of events the cycle has
    produced so far, so that the same request may succeed at one moment
    and fail at another. *)
Record Env : Type := mkEnv {
  (** [float(s)] on a string: [None] when Python raises [ValueError] *)
  float_of_str : string -> option float;
  (** [json.loads(s)] when it succeeds and yields an object, with the
      entries that are numbers, strings or null; [None] when it raises or
      yields anything without a [get] method *)
  json_loads_object : string -> option Dict;
  (** [re.compile(p, re.IGNORECASE)] succeeds *)
  re_valid : string -> bool;
  (** [re.compile(p, re.IGNORECASE).search(text) is not None] *)
  re_search : string -> string -> bool;
  (** [EbayFetcher(settings).fetch_listings(keywords, max_price)] *)
  ebay_fetch_listings : nat -> list string -> option float -> Res (list Dict);
  (** [VintedFetcher(settings).fetch_listings(keywords, max_price)] *)
  vinted_fetch_listings : nat -> list string -> option float -> Res (list Dict);
  (** the Cloud API request is accepted ([raise_for_status] passes) *)
  cloud_post_ok : nat -> string -> bool;
  (** the Twilio request is accepted *)
  twilio_post_ok : nat -> string -> bool;
  (** [datetime.utcnow().isoformat()] *)
  utcnow_iso : nat -> string;
  (** [str(x)] of a float, its shortest decimal form *)
  float_repr : float -> string;
  (** the text SQLite stores for a REAL bound to a TEXT column *)
  sqlite_real_text : float -> string
}.

(** [float(v)] *)
Definition py_float (env : Env) (v : PyVal) : Res float :=
  match v with
  | VFloat x => Ok x
  | VStr s =>
      match float_of_str env s with
      | Some x => Ok x
      | None => Raise (ValueError "could not convert string to float")
      end
  | VNone => Raise TypeError
  end.

(** [v * 1.5] and the like, a float on the right: a string on the left
    cannot be repeated a fractional number of times. *)
Definition py_mul_float (v : PyVal) (y : float) : Res float :=
  match v with
  | VFloat x => Ok (F.mul x y)
  | _ => Raise TypeError
  end.

(** ** Valuation ([valuation.py]) *)

(** The seven-tuple returned by [compute_profit], in its order. *)
Record Breakdown : Type := mkBreakdown {
  product_cost : float;
  buyer_protection_cost : float;
  shipping_cost : float;
  total_cost : float;
  potential_resale_value : float;
  profit : float;
  margin_percent : float
}.

Definition static_prices : gmap string float :=
  {[ "cobra|king ltdx" := F.of_Z 130;
     "scotty cameron|phantom x" := F.of_Z 240 ]}.

Section Valuation.

Context (env : Env).

Definition compute_buyer_protection_cost (price : float) (settings : Settings) : float :=
  let cost := F.mul price (F.of_ratio 5 100) in
  F.round2 cost.

Definition lookup_shipping_cost (listing : Dict) (settings : Settings) : Res (option float) :=
  match dict_get listing "shipping_cost" with
  | VNone =>
      if opt_truthy (SHIPPING_TABLE_JSON settings) then
        (* try: ... except Exception: pass *)
        match json_loads_object env (default "" (SHIPPING_TABLE_JSON settings)) with
        | Some table =>
            match py_float env (dict_get_or table "default" (VFloat F.zero)) with
            | Ok x => Ok (Some (F.round2 x))
            | Raise _ => Ok None
            end
        | None => Ok None
        end
      else Ok None
  | _ =>
      let! v := getitem listing "shipping_cost" in
      let! x := py_float env v in
      Ok (Some (F.round2 x))
  end.

Definition estimate_resale_value (listing : Dict) (settings : Settings) : Res (option float) :=
  let price := dict_get listing "price" in
  match price with
  | VNone => Ok None
  | _ =>
      let strategy := str_upper (VALUATION_STRATEGY settings) in
      if decide (strategy = "A") then
        let! x := py_mul_float price (F.of_ratio 15 10) in
        Ok (Some (F.round2 x))
      else if decide (strategy = "B") then
        let! brand := py_lower (py_or (dict_get listing "brand") (VStr "")) in
        let! model := py_lower (py_or (dict_get listing "model") (VStr "")) in
        let key := brand ++ "|" ++ model in
        Ok (static_prices !! key)
      else if decide (strategy = "C") then
        let! x := py_mul_float price (F.of_ratio 15 10) in
        Ok (Some (F.round2 x))
      else Raise (ValueError ("Unknown valuation strategy: " ++ strategy))
  end.

Definition compute_profit (listing : Dict) (settings : Settings) : Res Breakdown :=
  let! price := py_float env (dict_get_or listing "price" (VFloat F.zero)) in
  let product_cost := F.round2 price in
  let buyer_protection_cost := compute_buyer_protection_cost product_cost settings in
  let! shipping_cost := lookup_shipping_cost listing settings in
  let total_cost := F.add product_cost buyer_protection_cost in
  let total_cost :=
    match shipping_cost with
    | Some s => F.add total_cost s
    | None => total_cost
    end in
  let! potential_resale_value := estimate_resale_value listing settings in
  let '(profit, margin_percent) :=
    match potential_resale_value with
    | None => (F.zero, F.zero)
    | Some resale =>
        let profit := F.round2 (F.sub resale total_cost) in
        (profit,
         if F.truthy total_cost
         then F.round2 (F.mul (F.div profit total_cost) (F.of_Z 100))
         else F.zero)
    end in
  Ok {| product_cost := F.round2 product_cost;
        buyer_protection_cost := F.round2 buyer_protection_cost;
        shipping_cost := match shipping_cost with Some s => F.round2 s | None => F.zero end;
        total_cost := F.round2 total_cost;
        potential_resale_value :=
          match potential_resale_value with Some r => F.round2 r | None => F.zero end;
        profit := F.round2 profit;
        margin_percent := F.round2 margin_percent |}.

End Valuation.

(** ** The seen table ([seen_store.py]) *)

(** One row of the table [seen]; [(marketplace, listing_id)] is its
    primary key. *)
Record SeenRow : Type := mkRow {
  row_marketplace : string;
  row_listing_id : string;
  row_seen_at : string
}.

Module SeenStore.

(** [WHERE marketplace=? AND listing_id=?] *)
Definition key_matches (marketplace listing_id : string) (r : SeenRow) : bool :=
  String.eqb (row_marketplace r) marketplace && String.eqb (row_listing_id r) listing_id.

(** The rows a [SELECT ... WHERE marketplace=? AND listing_id=?] yields. *)
Definition select (table : list SeenRow) (marketplace listing_id : string) : list SeenRow :=
  List.filter (key_matches marketplace listing_id) table.

(** [cursor.fetchone() is not None] *)
Definition has_seen (table : list SeenRow) (marketplace listing_id : string) : bool :=
  match select table marketplace listing_id with
  | [] => false
  | _ :: _ => true
  end.

(** [INSERT OR REPLACE]: the rows in conflict on the primary key are
    deleted, then the new row is inserted. *)
Definition mark_seen (table : list SeenRow) (marketplace listing_id seen_at : string)
  : list SeenRow :=
  List.filter (fun r => negb (key_matches marketplace listing_id r)) table
    ++ [mkRow marketplace listing_id seen_at].

(** The table right after [CREATE TABLE IF NOT EXISTS] on a new file. *)
Definition empty : list SeenRow := [].

End SeenStore.

(** A run of [mark_seen] calls, each with the time it reads. *)
Definition mark_all (calls : list (string * string * string)) (table : list SeenRow)
  : list SeenRow :=
  fold_left (fun t c => SeenStore.mark_seen t c.1.1 c.1.2 c.2) calls table.

(** ** The world of one cycle *)

Inductive Fetcher : Type := EbayFetcher | VintedFetcher.

Inductive LogRecord : Type :=
| LogFetcherError (e : PyExc)
| LogNotificationSent (marketplace listing_id : PyVal)
| LogPayload (marketplace listing_id : PyVal) (b : Breakdown) (timestamp_utc : string)
| LogNoTransport
| LogCloudFailed
| LogTwilioFailed.

(** What a cycle does that can be observed from outside. *)
Inductive Event : Type :=
| EvFetch (f : Fetcher)
| EvMarkSeen (marketplace listing_id : string)
| EvSend (message : string)                  (* a call of [WhatsAppNotifier.send] *)
| EvCloudPost (message : string) (ok : bool)
| EvTwilioPost (message : string) (ok : bool)
| EvLog (r : LogRecord).

(** The SQLite file and the events so far, the most recent first. *)
Record World : Type := mkWorld {
  seen : list SeenRow;
  trace : list Event
}.

Definition M (A : Type) : Type := World -> Res A * World.

Definition ret {A} (a : A) : M A := fun w => (Ok a, w).

Definition bind {A B} (m : M A) (k : A -> M B) : M B :=
  fun w =>
    match m w with
    | (Ok a, w') => k a w'
    | (Raise e, w') => (Raise e, w')
    end.

Definition lift {A} (r : Res A) : M A := fun w => (r, w).

Definition emit (e : Event) : M unit :=
  fun w => (Ok tt, {| seen := seen w; trace := e :: trace w |}).

Notation "'do!' x ':=' m 'in' k" := (bind m (fun x => k))
  (at level 10, x name, m at level 100, k at level 200).
Notation "m ';;' k" := (bind m (fun _ => k))
  (at level 100, k at level 200, right associativity).

(** The number of events so far: the moment handed to [Env]. *)
Definition moment : M nat := fun w => (Ok (length (trace w)), w).

(** *** Counting events *)

Definition is_send (e : Event) : bool :=
  match e with
  | EvSend _ => true
  | _ => false
  end.

Definition is_post (e : Event) : bool :=
  match e with
  | EvCloudPost _ _ | EvTwilioPost _ _ => true
  | _ => false
  end.

Definition is_mark (e : Event) : bool :=
  match e with
  | EvMarkSeen _ _ => true
  | _ => false
  end.

Definition is_mark_of (marketplace listing_id : string) (e : Event) : bool :=
  match e with
  | EvMarkSeen m i => String.eqb m marketplace && String.eqb i listing_id
  | _ => false
  end.

(** How many events of a kind a trace holds. *)
Definition count (kind : Event -> bool) (events : list Event) : nat :=
  length (List.filter kind events).

(** ** Notification ([whatsapp.py]) *)

Section WhatsApp.

Context (env : Env).

(** [str(v)], as an f-string renders a value *)
Definition py_str (v : PyVal) : string :=
  match v with
  | VNone => "None"
  | VStr s => s
  | VFloat x => float_repr env x
  end.

(** The pound sign is the two bytes of its UTF-8 form.  The two
    indicator marks are surrogate escapes in the source, which no byte
    string holds: the text of the escapes stands for them. *)
Definition format_message (listing : Dict) (breakdown : Breakdown) (settings : Settings)
  : Res string :=
  let currency_symbol :=
    if decide (str_upper (CURRENCY settings) = "GBP") then "£"
    else CURRENCY settings ++ " " in
  let! title := getitem listing "title" in
  let! url := getitem listing "url" in
  let condition := dict_get_or listing "condition" (VStr "Unknown") in
  let nl := String (ascii_of_nat 10) EmptyString in
  Ok ("Title: " ++ py_str title ++ nl
      ++ "Link: " ++ py_str url ++ nl
      ++ "Condition: " ++ py_str condition ++ nl ++ nl
      ++ "Costs" ++ nl
      ++ "Product: " ++ currency_symbol ++ F.fmt2 (product_cost breakdown) ++ nl
      ++ "Buyer protection: " ++ currency_symbol
      ++ F.fmt2 (buyer_protection_cost breakdown) ++ nl
      ++ "Shipping: " ++ currency_symbol ++ F.fmt2 (shipping_cost breakdown) ++ nl
      ++ "Total: " ++ currency_symbol ++ F.fmt2 (total_cost breakdown) ++ nl ++ nl
      ++ "Value" ++ nl
      ++ "Potential resale: " ++ currency_symbol
      ++ F.fmt2 (potential_resale_value breakdown) ++ nl
      ++ "Profit: " ++ currency_symbol ++ F.fmt2 (profit breakdown)
      ++ "  (" ++ F.fmt2 (margin_percent breakdown) ++ "% )" ++ nl ++ nl
      ++ (if F.leb (PROFIT_MIN settings) (profit breakdown)
          then "\ud83d\udd35 Looks good!"
          else "\ud83d\udfe4 Not profitable enough")).

(** [WhatsAppNotifier._send_cloud]: the request and [raise_for_status]
    sit in a [try] that turns every exception into [False]. *)
Definition _send_cloud (settings : Settings) (message : string) : M bool :=
  do! now := moment in
  let ok := cloud_post_ok env now message in
  emit (EvCloudPost message ok);;
  if ok then ret true
  else emit (EvLog LogCloudFailed);; ret false.

Definition _send_twilio (settings : Settings) (message : string) : M bool :=
  do! now := moment in
  let ok := twilio_post_ok env now message in
  emit (EvTwilioPost message ok);;
  if ok then ret true
  else emit (EvLog LogTwilioFailed);; ret false.

(** The part of [send] after the Cloud API attempt. *)
Definition send_fallback (settings : Settings) (message : string) : M bool :=
  if opt_truthy (TWILIO_ACCOUNT_SID settings)
     && opt_truthy (TWILIO_AUTH_TOKEN settings)
     && opt_truthy (TWILIO_WHATSAPP_FROM settings)
  then _send_twilio settings message
  else emit (EvLog LogNoTransport);; ret false.

(** [WhatsAppNotifier.send] *)
Definition send (settings : Settings) (message : string) : M bool :=
  emit (EvSend message);;
  if opt_truthy (WA_PHONE_ID settings) && opt_truthy (WA_TOKEN settings) then
    do! sent := _send_cloud settings message in
    if sent then ret true else send_fallback settings message
  else send_fallback settings message.

End WhatsApp.

(** ** The polling cycle ([worker.py]) *)

(** The white space among the ASCII characters, as [str.strip] sees it:
    tab to carriage return, the four separators 28 to 31, and the space.
    Outside ASCII [str.strip] knows further white space. *)
Definition is_space (c : ascii) : bool :=
  let n := nat_of_ascii c in
  ((9 <=? n)%nat && (n <=? 13)%nat) || ((28 <=? n)%nat && (n <=? 32)%nat).

Fixpoint str_lstrip (s : string) : string :=
  match s with
  | String c s' => if is_space c then str_lstrip s' else s
  | EmptyString => EmptyString
  end.

Definition str_strip (s : string) : string :=
  String.rev (str_lstrip (String.rev (str_lstrip s))).

(** [s.split(sep)] for a separator of one character *)
Fixpoint str_split (sep : ascii) (s : string) : list string :=
  match s with
  | EmptyString => [EmptyString]
  | String c s' =>
      if Ascii.eqb c sep then EmptyString :: str_split sep s'
      else
        match str_split sep s' with
        | h :: t => String c h :: t
        | [] => [String c EmptyString]
        end
  end.

Definition parse_keywords (keyword_str : string) : list string :=
  List.map str_strip
    (List.filter (fun kw => negb (String.eqb (str_strip kw) "")) (str_split "," keyword_str)).

Definition acceptable : list string :=
  ["new"; "like new"; "excellent"; "very good"; "good"].

(** [condition_acceptable]; the condition is lowered with [str_lower]. *)
Definition condition_acceptable (condition : PyVal) : Res bool :=
  if negb (truthy condition) then Ok false
  else
    let! lowered := py_lower condition in
    Ok (existsb (String.eqb lowered) acceptable).

Section Worker.

Context (env : Env).

(** A value bound to a [?] of a statement on the table [seen], whose
    columns are TEXT: a string as it is, a float as SQLite renders it,
    [None] as NULL. *)
Definition sql_text (v : PyVal) : option string :=
  match v with
  | VStr s => Some s
  | VFloat x => Some (sqlite_real_text env x)
  | VNone => None
  end.

(** [seen_store.has_seen(marketplace, listing_id)]; a comparison with
    NULL selects no row. *)
Definition seen_store_has_seen (marketplace listing_id : PyVal) : M bool :=
  fun w =>
    match sql_text marketplace, sql_text listing_id with
    | Some m, Some i => (Ok (SeenStore.has_seen (seen w) m i), w)
    | _, _ => (Ok false, w)
    end.

(** [seen_store.mark_seen(marketplace, listing_id)]; both columns are
    NOT NULL. *)
Definition seen_store_mark_seen (marketplace listing_id : PyVal) : M unit :=
  fun w =>
    match sql_text marketplace, sql_text listing_id with
    | Some m, Some i =>
        (Ok tt,
         {| seen := SeenStore.mark_seen (seen w) m i (utcnow_iso env (length (trace w)));
            trace := EvMarkSeen m i :: trace w |})
    | _, _ => (Raise (OtherError "sqlite3.IntegrityError"), w)
    end.

(** [re.compile(pattern, re.IGNORECASE) if pattern else None] *)
Definition compile_filter (pattern : option string) : Res (option string) :=
  if opt_truthy pattern then
    let p := default "" pattern in
    if re_valid env p then Ok (Some p) else Raise (OtherError "re.error")
  else Ok None.

(** [regex.search(title)] on a dynamically typed title *)
Definition regex_search (pattern : string) (title : PyVal) : Res bool :=
  match title with
  | VStr t => Ok (re_search env pattern t)
  | _ => Raise TypeError
  end.

(** [regex_include and not regex_include.search(title)] *)
Definition include_rejects (regex_include : option string) (title : PyVal) : Res bool :=
  match regex_include with
  | Some p => let! found := regex_search p title in Ok (negb found)
  | None => Ok false
  end.

(** [regex_exclude and regex_exclude.search(title)] *)
Definition exclude_rejects (regex_exclude : option string) (title : PyVal) : Res bool :=
  match regex_exclude with
  | Some p => regex_search p title
  | None => Ok false
  end.

(** [cond and not condition_acceptable(cond)] *)
Definition condition_rejects (cond : PyVal) : Res bool :=
  if truthy cond then
    let! ok := condition_acceptable cond in Ok (negb ok)
  else Ok false.

(** [profit < settings.PROFIT_MIN or margin_percent < settings.MARGIN_MIN_PERCENT] *)
Definition below_thresholds (settings : Settings) (b : Breakdown) : bool :=
  F.ltb (profit b) (PROFIT_MIN settings)
  || F.ltb (margin_percent b) (MARGIN_MIN_PERCENT settings).

(** The end of the loop body, once the thresholds are met: format, send,
    mark seen, log the payload. *)
Definition notify_and_mark (settings : Settings) (listing : Dict)
    (marketplace listing_id : PyVal) (b : Breakdown) : M unit :=
  do! message := lift (format_message env listing b settings) in
  do! sent := send env settings message in
  (if sent then emit (EvLog (LogNotificationSent marketplace listing_id)) else ret tt);;
  seen_store_mark_seen marketplace listing_id;;
  do! now := moment in
  emit (EvLog (LogPayload marketplace listing_id b (utcnow_iso env now))).

(** The body of the loop over the listings of one fetcher.  A
    [continue] is the end of the body. *)
Definition run_once_listing (settings : Settings) (regex_include regex_exclude : option string)
    (listing : Dict) : M unit :=
  do! marketplace := lift (getitem listing "marketplace") in
  do! listing_id := lift (getitem listing "listing_id") in
  if negb (truthy listing_id) then ret tt
  else
    do! already := seen_store_has_seen marketplace listing_id in
    if already then ret tt
    else
      let title := dict_get_or listing "title" (VStr "") in
      do! rejected := lift (include_rejects regex_include title) in
      if rejected then ret tt
      else
        do! rejected := lift (exclude_rejects regex_exclude title) in
        if rejected then ret tt
        else
          let cond := py_or (dict_get listing "condition") (VStr "") in
          do! rejected := lift (condition_rejects cond) in
          if rejected then ret tt
          else
            do! b := lift (compute_profit env listing settings) in
            if below_thresholds settings b then
              seen_store_mark_seen marketplace listing_id
            else notify_and_mark settings listing marketplace listing_id b.

(** [for listing in listings: ...] *)
Fixpoint run_once_listings (settings : Settings) (regex_include regex_exclude : option string)
    (listings : list Dict) : M unit :=
  match listings with
  | [] => ret tt
  | listing :: rest =>
      run_once_listing settings regex_include regex_exclude listing;;
      run_once_listings settings regex_include regex_exclude rest
  end.

Definition fetch_listings (f : Fetcher) (keywords : list string) (max_price : option float)
  : M (list Dict) :=
  do! now := moment in
  emit (EvFetch f);;
  lift (match f with
        | EbayFetcher => ebay_fetch_listings env now keywords max_price
        | VintedFetcher => vinted_fetch_listings env now keywords max_price
        end).

(** [try: listings = fetcher.fetch_listings(...) except Exception: log; continue] *)
Definition try_fetch (f : Fetcher) (keywords : list string) (max_price : option float)
  : M (option (list Dict)) :=
  fun w =>
    match fetch_listings f keywords max_price w with
    | (Ok listings, w') => (Ok (Some listings), w')
    | (Raise e, w') => (emit (EvLog (LogFetcherError e));; ret None) w'
    end.

(** [for fetcher in fetchers: ...] *)
Fixpoint run_once_fetchers (settings : Settings) (keywords : list string)
    (max_price : option float) (regex_include regex_exclude : option string)
    (fetchers : list Fetcher) : M unit :=
  match fetchers with
  | [] => ret tt
  | fetcher :: rest =>
      do! fetched := try_fetch fetcher keywords max_price in
      match fetched with
      | None => run_once_fetchers settings keywords max_price regex_include regex_exclude rest
      | Some listings =>
          run_once_listings settings regex_include regex_exclude listings;;
          run_once_fetchers settings keywords max_price regex_include regex_exclude rest
      end
  end.

Definition enabled_fetchers (settings : Settings) : list Fetcher :=
  (if ENABLE_EBAY settings then [EbayFetcher] else [])
    ++ (if ENABLE_VINTED settings then [VintedFetcher] else []).

(** One polling cycle.  Opening the store runs [CREATE TABLE IF NOT
    EXISTS], which leaves the rows of an existing table alone.  The
    table of the world is the one in the file [settings.SQLITE_DB];
    [run_cycle] below takes it from the files of a machine. *)
Definition run_once (settings : Settings) : M unit :=
  let keywords := parse_keywords (KEYWORDS settings) in
  let max_price := MAX_PRICE settings in
  do! regex_include := lift (compile_filter (REGEX_INCLUDE settings)) in
  do! regex_exclude := lift (compile_filter (REGEX_EXCLUDE settings)) in
  run_once_fetchers settings keywords max_price regex_include regex_exclude
    (enabled_fetchers settings).

(** The listing carries an identifier, is not in the store, and goes
    through the three filters: the loop body arrives at
    [compute_profit]. *)
Record reaches_valuation (regex_include regex_exclude : option string)
    (listing : Dict) (w : World) (m i : string) : Prop := {
  rv_marketplace : listing !! "marketplace" = Some (VStr m);
  rv_listing_id : listing !! "listing_id" = Some (VStr i);
  rv_id_set : i <> "";
  rv_unseen : SeenStore.has_seen (seen w) m i = false;
  rv_include :
    include_rejects regex_include (dict_get_or listing "title" (VStr "")) = Ok false;
  rv_exclude :
    exclude_rejects regex_exclude (dict_get_or listing "title" (VStr "")) = Ok false;
  rv_condition :
    condition_rejects (py_or (dict_get listing "condition") (VStr "")) = Ok false
}.

(** The specification has every listing that the dedup step lets through
    and whose processing ends without an error in the store afterwards;
    this is that sentence for one listing in one world. *)
Definition marks_all_but_duplicates (settings : Settings)
    (ri re : option string) (listing : Dict) (w : World) : Prop :=
  forall m i w',
    listing !! "marketplace" = Some (VStr m) ->
    listing !! "listing_id" = Some (VStr i) ->
    SeenStore.has_seen (seen w) m i = false ->
    run_once_listing settings ri re listing w = (Ok tt, w') ->
    SeenStore.has_seen (seen w') m i = true.

End Worker.

(** ** Sample data *)

(** An environment in which nothing outside answers: no listing is
    fetched and every request to a transport fails. *)
Definition silent_env : Env :=
  {| float_of_str := fun _ => None;
     json_loads_object := fun _ => None;
     re_valid := fun _ => true;
     re_search := fun _ _ => false;
     ebay_fetch_listings := fun _ _ _ => Ok [];
     vinted_fetch_listings := fun _ _ _ => Ok [];
     cloud_post_ok := fun _ _ => false;
     twilio_post_ok := fun _ _ => false;
     utcnow_iso := fun _ => "2024-01-01T00:00:00";
     float_repr := fun _ => "?";
     sqlite_real_text := fun _ => "?" |}.

(** The defaults of [settings.py] with an empty process environment. *)
Definition default_settings : Settings :=
  {| ENABLE_EBAY := true; ENABLE_VINTED := false;
     WA_PHONE_ID := None; WA_TOKEN := None; RECIPIENT_PHONE := None;
     TWILIO_ACCOUNT_SID := None; TWILIO_AUTH_TOKEN := None; TWILIO_WHATSAPP_FROM := None;
     PROFIT_MIN := F.of_Z 10; MARGIN_MIN_PERCENT := F.of_Z 20;
     KEYWORDS := "driver,putter,irons,Scotty Cameron,Cobra,Taylormade,Titleist";
     MAX_PRICE := None; REGEX_INCLUDE := None; REGEX_EXCLUDE := None;
     CURRENCY := "GBP"; POLL_INTERVAL := 5; VALUATION_STRATEGY := "C";
     SHIPPING_TABLE_JSON := None; SQLITE_DB := "seen.db" |}.

Definition with_strategy (settings : Settings) (strategy : string) : Settings :=
  {| ENABLE_EBAY := ENABLE_EBAY settings; ENABLE_VINTED := ENABLE_VINTED settings;
     WA_PHONE_ID := WA_PHONE_ID settings; WA_TOKEN := WA_TOKEN settings;
     RECIPIENT_PHONE := RECIPIENT_PHONE settings;
     TWILIO_ACCOUNT_SID := TWILIO_ACCOUNT_SID settings;
     TWILIO_AUTH_TOKEN := TWILIO_AUTH_TOKEN settings;
     TWILIO_WHATSAPP_FROM := TWILIO_WHATSAPP_FROM settings;
     PROFIT_MIN := PROFIT_MIN settings; MARGIN_MIN_PERCENT := MARGIN_MIN_PERCENT settings;
     KEYWORDS := KEYWORDS settings; MAX_PRICE := MAX_PRICE settings;
     REGEX_INCLUDE := REGEX_INCLUDE settings; REGEX_EXCLUDE := REGEX_EXCLUDE settings;
     CURRENCY := CURRENCY settings; POLL_INTERVAL := POLL_INTERVAL settings;
     VALUATION_STRATEGY := strategy;
     SHIPPING_TABLE_JSON := SHIPPING_TABLE_JSON settings; SQLITE_DB := SQLITE_DB settings |}.

(** The listing of [test_compute_profit_heuristic]. *)
Definition test_listing : Dict :=
  {[ "price" := VFloat (F.of_Z 100); "shipping_cost" := VFloat (F.of_Z 5) ]}.

(** A listing as a fetcher builds it, every key present. *)
Definition make_listing (marketplace : string) (listing_id title condition brand model : PyVal)
    (price shipping : PyVal) : Dict :=
  {[ "marketplace" := VStr marketplace; "listing_id" := listing_id;
     "title" := title; "url" := VStr "https://example.com/item";
     "brand" := brand; "model" := model; "condition" := condition;
     "price" := price; "currency" := VStr "GBP";
     "shipping_cost" := shipping; "location" := VNone ]}.

(** A driver at 80 with shipping 4: resale 120, profit 32, margin 36.36. *)
Definition good_listing : Dict :=
  make_listing "ebay" (VStr "dry1") (VStr "Cobra King LTDx driver") (VStr "excellent")
    (VStr "Cobra") (VStr "King LTDx") (VFloat (F.of_Z 80)) (VFloat (F.of_Z 4)).

(** The same item in a condition outside the accepted ones. *)
Definition poor_listing : Dict :=
  make_listing "ebay" (VStr "dry4") (VStr "Cobra King LTDx driver") (VStr "poor")
    (VStr "Cobra") (VStr "King LTDx") (VFloat (F.of_Z 80)) (VFloat (F.of_Z 4)).

(** An item with no shipping cost and a price of 8: resale 12, profit 3.6. *)
Definition cheap_listing : Dict :=
  make_listing "vinted" (VStr "77") (VStr "Golf balls") VNone VNone VNone
    (VFloat (F.of_Z 8)) VNone.

(** What [EbayFetcher._simplify_item] builds from an item summary that
    carries no price value. *)
Definition unpriced_listing : Dict :=
  make_listing "ebay" (VStr "v1|123|0") (VStr "Titleist putter") (VStr "Good")
    VNone VNone VNone VNone.

(** A club the static table does not list, valued under strategy B. *)
Definition unlisted_listing : Dict :=
  make_listing "ebay" (VStr "b9") (VStr "Ping G425 driver") (VStr "good")
    (VStr "Ping") (VStr "G425") (VFloat (F.of_Z 90)) (VFloat (F.of_Z 6)).

Definition empty_world : World := {| seen := SeenStore.empty; trace := [] |}.

(** eBay answers with three listings, Vinted with one. *)
Definition shop_env : Env :=
  {| float_of_str := float_of_str silent_env;
     json_loads_object := json_loads_object silent_env;
     re_valid := re_valid silent_env;
     re_search := re_search silent_env;
     ebay_fetch_listings := fun _ _ _ => Ok [poor_listing; good_listing; unlisted_listing];
     vinted_fetch_listings := fun _ _ _ => Ok [cheap_listing];
     cloud_post_ok := cloud_post_ok silent_env;
     twilio_post_ok := twilio_post_ok silent_env;
     utcnow_iso := utcnow_iso silent_env;
     float_repr := float_repr silent_env;
     sqlite_real_text := sqlite_real_text silent_env |}.

(** Both marketplaces enabled and a strategy the code does not know. *)
Definition odd_settings : Settings :=
  {| ENABLE_EBAY := true; ENABLE_VINTED := true;
     WA_PHONE_ID := None; WA_TOKEN := None; RECIPIENT_PHONE := None;
     TWILIO_ACCOUNT_SID := None; TWILIO_AUTH_TOKEN := None; TWILIO_WHATSAPP_FROM := None;
     PROFIT_MIN := F.of_Z 10; MARGIN_MIN_PERCENT := F.of_Z 20;
     KEYWORDS := "driver, putter";
     MAX_PRICE := None; REGEX_INCLUDE := None; REGEX_EXCLUDE := None;
     CURRENCY := "GBP"; POLL_INTERVAL := 5; VALUATION_STRATEGY := "median";
     SHIPPING_TABLE_JSON := None; SQLITE_DB := "seen.db" |}.

(** ** Loading the configuration ([settings.py]) *)

Section SettingsLoad.

(** The process environment, [os.getenv(name)], and [int(s)] on a string
    ([None] when Python raises [ValueError]). *)
Context (env : Env) (getenv : string -> option string) (int_of_str : string -> option Z).

(** [_env_bool]; the value is stripped and lowered with [str_strip] and
    [str_lower]. *)
Definition _env_bool (name : string) (dflt : bool) : bool :=
  match getenv name with
  | None => dflt
  | Some value =>
      existsb (String.eqb (str_lower (str_strip value))) ["1"; "true"; "yes"; "on"]
  end.

Definition _env_float (name : string) (dflt : option float) : option float :=
  match getenv name with
  | None => dflt
  | Some value =>
      if String.eqb value "" then dflt
      else
        match float_of_str env value with
        | Some x => Some x
        | None => dflt
        end
  end.

Definition _env_int (name : string) (dflt : Z) : Z :=
  match getenv name with
  | None => dflt
  | Some value =>
      match int_of_str value with
      | Some n => n
      | None => dflt
      end
  end.

(** [o or dflt] for an [Optional[float]]: [None] and the zeros give way
    to the default. *)
Definition float_or (o : option float) (dflt : float) : float :=
  match o with
  | Some x => if F.truthy x then x else dflt
  | None => dflt
  end.

(** [os.getenv(name, dflt)] *)
Definition getenv_or (name dflt : string) : string := default dflt (getenv name).

(** The defaults of the dataclass [Settings], which are what
    [get_settings()] returns: the class body reads the environment. *)
Definition get_settings : Settings :=
  {| ENABLE_EBAY := _env_bool "ENABLE_EBAY" true;
     ENABLE_VINTED := _env_bool "ENABLE_VINTED" false;
     WA_PHONE_ID := getenv "WA_PHONE_ID";
     WA_TOKEN := getenv "WA_TOKEN";
     RECIPIENT_PHONE := getenv "RECIPIENT_PHONE";
     TWILIO_ACCOUNT_SID := getenv "TWILIO_ACCOUNT_SID";
     TWILIO_AUTH_TOKEN := getenv "TWILIO_AUTH_TOKEN";
     TWILIO_WHATSAPP_FROM := getenv "TWILIO_WHATSAPP_FROM";
     PROFIT_MIN := float_or (_env_float "PROFIT_MIN" (Some (F.of_Z 10))) (F.of_Z 10);
     MARGIN_MIN_PERCENT :=
       float_or (_env_float "MARGIN_MIN_PERCENT" (Some (F.of_Z 20))) (F.of_Z 20);
     KEYWORDS :=
       getenv_or "KEYWORDS" "driver,putter,irons,Scotty Cameron,Cobra,Taylormade,Titleist";
     MAX_PRICE := _env_float "MAX_PRICE" None;
     REGEX_INCLUDE := getenv "REGEX_INCLUDE";
     REGEX_EXCLUDE := getenv "REGEX_EXCLUDE";
     CURRENCY := getenv_or "CURRENCY" "GBP";
     POLL_INTERVAL := _env_int "POLL_INTERVAL" 5;
     VALUATION_STRATEGY := getenv_or "VALUATION_STRATEGY" "C";
     SHIPPING_TABLE_JSON := getenv "SHIPPING_TABLE_JSON";
     SQLITE_DB := getenv_or "SQLITE_DB" "seen.db" |}.

End SettingsLoad.

(** [interval_seconds = max(settings.POLL_INTERVAL, 1) * 60], the pause of
    [start_worker] between two cycles. *)
Definition interval_seconds (settings : Settings) : Z :=
  (Z.max (POLL_INTERVAL settings) 1 * 60)%Z.

(** ** The fetchers' view of a response ([ebay_fetcher.py], [vinted_fetcher.py]) *)

(** What [response.json()] yields: the values of Python's [json]. *)
#[warnings="-register-all"]
Inductive Json : Type :=
| JNull
| JBool (b : bool)
| JInt (n : Z)
| JFloat (x : float)
| JStr (s : string)
| JList (items : list Json)
| JObj (fields : gmap string Json).

(** [bool(v)] *)
Definition j_truthy (v : Json) : bool :=
  match v with
  | JNull => false
  | JBool b => b
  | JInt n => negb (n =? 0)%Z
  | JFloat x => F.truthy x
  | JStr s => negb (String.eqb s "")
  | JList items => match items with [] => false | _ :: _ => true end
  | JObj fields => negb (bool_decide (fields = ∅))
  end.

(** [v.get(key, dflt)]: only a [dict] has the method. *)
Definition j_get (v : Json) (key : string) (dflt : Json) : Res Json :=
  match v with
  | JObj fields => Ok (default dflt (fields !! key))
  | _ => Raise AttributeError
  end.

(** [v[0]] *)
Definition j_first (v : Json) : Res Json :=
  match v with
  | JList (x :: _) => Ok x
  | JList [] => Raise (OtherError "IndexError")
  | JStr (String c _) => Ok (JStr (String c ""))
  | JStr EmptyString => Raise (OtherError "IndexError")
  | JObj _ => Raise (KeyError "0")
  | _ => Raise TypeError
  end.

(** [v.lower()] *)
Definition j_lower (v : Json) : Res string :=
  match v with
  | JStr s => Ok (str_lower s)
  | _ => Raise AttributeError
  end.

(** The values a [for] loop draws from [v]: the items of a list, the
    characters of a string, the keys of a [dict]. *)
Definition j_iter (v : Json) : Res (list Json) :=
  match v with
  | JList items => Ok items
  | JStr s => Ok (List.map (fun c => JStr (String c "")) (list_ascii_of_string s))
  | JObj fields => Ok (List.map (fun kv => JStr kv.1) (map_to_list fields))
  | _ => Raise TypeError
  end.

(** The values of a listing, among those of a response. *)
Definition of_py (v : PyVal) : Json :=
  match v with
  | VNone => JNull
  | VFloat x => JFloat x
  | VStr s => JStr s
  end.

Section Fetchers.

(** [repr] of a list or a [dict], which [str] falls back to. *)
Context (env : Env) (json_repr : Json -> string).

(** [float(v)] *)
Definition j_float (v : Json) : Res float :=
  match v with
  | JFloat x => Ok x
  | JInt n =>
      match F.of_Z n with
      | S754_infinity _ => Raise (OtherError "OverflowError")
      | x => Ok x
      end
  | JBool b => Ok (if b then F.of_Z 1 else F.zero)
  | JStr s =>
      match float_of_str env s with
      | Some x => Ok x
      | None => Raise (ValueError "could not convert string to float")
      end
  | _ => Raise TypeError
  end.

(** [str(v)] *)
Definition j_str (v : Json) : string :=
  match v with
  | JNull => "None"
  | JBool b => if b then "True" else "False"
  | JInt n => ((if (n <? 0)%Z then "-" else "") ++ F.digits (Z.abs n))%string
  | JFloat x => float_repr env x
  | JStr s => s
  | _ => json_repr v
  end.

(** [float(v) if v else None] *)
Definition float_if_truthy (v : Json) : Res Json :=
  if j_truthy v then let! x := j_float v in Ok (JFloat x) else Ok JNull.

(** [float(v) if v is not None else None] *)
Definition float_if_set (v : Json) : Res Json :=
  match v with
  | JNull => Ok JNull
  | _ => let! x := j_float v in Ok (JFloat x)
  end.

(** The loop of [EbayFetcher._get_attribute] over the aspects. *)
Fixpoint find_aspect (name : string) (aspects : list Json) : Res Json :=
  match aspects with
  | [] => Ok JNull
  | aspect :: rest =>
      let! aspect_name := j_get aspect "name" JNull in
      let! lowered := j_lower aspect_name in
      if String.eqb lowered (str_lower name) then
        let! values := j_get aspect "value" (JList []) in
        if j_truthy values then j_first values else Ok JNull
      else find_aspect name rest
  end.

Definition _get_attribute (item : Json) (name : string) : Res Json :=
  let! specifics := j_get item "itemSpecifics" (JObj ∅) in
  let! aspects := j_get specifics "nameValueList" (JList []) in
  let! drawn := j_iter aspects in
  find_aspect name drawn.

(** [EbayFetcher._simplify_item] *)
Definition ebay_simplify_item (item : Json) : Res (gmap string Json) :=
  let! price_info := j_get item "price" (JObj ∅) in
  let! shipping_options := j_get item "shippingOptions" (JList []) in
  let! shipping_cost :=
    (if j_truthy shipping_options then
       let! option0 := j_first shipping_options in
       let! shipping := j_get option0 "shippingCost" (JObj ∅) in
       let! value := j_get shipping "value" JNull in
       float_if_truthy value
     else Ok JNull) in
  let! listing_id := j_get item "itemId" JNull in
  let! title := j_get item "title" JNull in
  let! url := j_get item "itemWebUrl" JNull in
  let! brand := _get_attribute item "Brand" in
  let! model := _get_attribute item "Model" in
  let! condition := j_get item "condition" JNull in
  let! value := j_get price_info "value" JNull in
  let! price := float_if_truthy value in
  let! currency := j_get price_info "currency" JNull in
  let! item_location := j_get item "itemLocation" (JObj ∅) in
  let! location := j_get item_location "postalCode" JNull in
  Ok {[ "marketplace" := JStr "ebay"; "listing_id" := listing_id; "title" := title;
        "url" := url; "brand" := brand; "model" := model; "condition" := condition;
        "price" := price; "currency" := currency; "shipping_cost" := shipping_cost;
        "location" := location ]}.

(** [VintedFetcher._simplify_item]; [region] is [settings.VINTED_REGION]. *)
Definition vinted_simplify_item (region : string) (item : Json) : Res (gmap string Json) :=
  let! price_field := j_get item "price" (JObj ∅) in
  let! price_cents := j_get price_field "numeric" JNull in
  let! shipping_options := j_get item "service_fee" (JObj ∅) in
  let! shipping_cost_cents :=
    (if j_truthy shipping_options
        && match shipping_options with JObj _ => true | _ => false end
     then j_get shipping_options "amount" JNull
     else Ok JNull) in
  let! id := j_get item "id" JNull in
  let! title := j_get item "title" JNull in
  let url := "https://www.vinted." ++ region ++ "/items/" ++ j_str id in
  let! brand := j_get item "brand_title" JNull in
  let! model := j_get item "model" JNull in
  let! condition := j_get item "status" JNull in
  let! price := float_if_set price_cents in
  let! currency := j_get item "currency" (JStr "EUR") in
  let! shipping_cost := float_if_set shipping_cost_cents in
  let! city := j_get item "city" (JObj ∅) in
  let! location := j_get city "title" JNull in
  Ok {[ "marketplace" := JStr "vinted"; "listing_id" := JStr (j_str id); "title" := title;
        "url" := JStr url; "brand" := brand; "model" := model; "condition" := condition;
        "price" := price; "currency" := currency; "shipping_cost" := shipping_cost;
        "location" := location ]}.

(** [for item in items: try: append(simplify(item)) except Exception: log] *)
Fixpoint keep_parsed (simplify : Json -> Res (gmap string Json)) (items : list Json)
  : list (gmap string Json) :=
  match items with
  | [] => []
  | item :: rest =>
      match simplify item with
      | Ok listing => listing :: keep_parsed simplify rest
      | Raise _ => keep_parsed simplify rest
      end
  end.


(** The end of [VintedFetcher.fetch_listings], from the parsed response
    [data] on. *)
Definition vinted_parse_response (region : string) (data : Json)
  : Res (list (gmap string Json)) :=
  let! items := j_get data "items" (JList []) in
  let! drawn := j_iter items in
  Ok (keep_parsed (vinted_simplify_item region) drawn).

End Fetchers.

(** ** The dry run ([app.py]) *)

Definition dry_run_samples : list Dict :=
  [ {[ "marketplace" := VStr "ebay"; "listing_id" := VStr "dry1";
       "title" := VStr "Cobra King LTDx driver 9 deg with HC";
       "url" := VStr "https://example.com/item1";
       "brand" := VStr "Cobra"; "model" := VStr "King LTDx";
       "condition" := VStr "excellent"; "price" := VFloat (F.of_Z 80);
       "currency" := VStr "GBP"; "shipping_cost" := VFloat (F.of_Z 4) ]};
    {[ "marketplace" := VStr "ebay"; "listing_id" := VStr "dry2";
       "title" := VStr "Scotty Cameron Phantom X putter";
       "url" := VStr "https://example.com/item2";
       "brand" := VStr "Scotty Cameron"; "model" := VStr "Phantom X";
       "condition" := VStr "very good"; "price" := VFloat (F.of_Z 200);
       "currency" := VStr "GBP"; "shipping_cost" := VFloat (F.of_Z 5) ]};
    {[ "marketplace" := VStr "vinted"; "listing_id" := VStr "dry3";
       "title" := VStr "Junior set 7 piece";
       "url" := VStr "https://example.com/item3";
       "brand" := VNone; "model" := VNone;
       "condition" := VStr "good"; "price" := VFloat (F.of_Z 35);
       "currency" := VStr "GBP"; "shipping_cost" := VFloat (F.of_Z 4) ]} ].

(** One entry of [results]: the message and the payload. *)
Record DryRunResult : Type := mkDryRunResult {
  dr_message : string;
  dr_payload : Dict
}.

(** The content that [dry_run] hands to [JSONResponse]. *)
Inductive DryRunContent : Type :=
| FirstResult (r : DryRunResult)     (* [results[0]] *)
| NoProfitable.                      (* the notice that no listing is profitable *)

Section DryRun.

(** [JSONResponse(content=...)] is not code of the repository: building
    the response encodes the content, which can raise. *)
Context (env : Env) {Response : Type} (JSONResponse : DryRunContent -> Res Response).

Definition dry_run_payload (settings : Settings) (listing : Dict) (b : Breakdown)
    (marketplace listing_id title url : PyVal) (timestamp_utc : string) : Dict :=
  <["marketplace" := marketplace]> (<["listing_id" := listing_id]> (<["title" := title]> (
  {[ "url" := url; "brand" := dict_get listing "brand"; "model" := dict_get listing "model";
     "condition" := dict_get listing "condition";
     "product_cost" := VFloat (product_cost b);
     "buyer_protection_cost" := VFloat (buyer_protection_cost b);
     "shipping_cost" := VFloat (shipping_cost b);
     "total_cost" := VFloat (total_cost b);
     "potential_resale_value" := VFloat (potential_resale_value b);
     "profit" := VFloat (profit b);
     "margin_percent" := VFloat (margin_percent b);
     "currency" := VStr (CURRENCY settings);
     "timestamp_utc" := VStr timestamp_utc ]}))).

(** One pass of the loop over the samples; [k] counts the readings of
    the clock. *)
Definition dry_run_entry (settings : Settings) (k : nat) (listing : Dict)
  : Res (DryRunResult * Breakdown) :=
  let! b := compute_profit env listing settings in
  let! message := format_message env listing b settings in
  let! marketplace := getitem listing "marketplace" in
  let! listing_id := getitem listing "listing_id" in
  let! title := getitem listing "title" in
  let! url := getitem listing "url" in
  Ok ({| dr_message := message;
         dr_payload :=
           dry_run_payload settings listing b marketplace listing_id title url
             (utcnow_iso env k) |}, b).

(** The loop of [dry_run], with its [break] at the first sample that
    meets both thresholds. *)
Fixpoint dry_run_loop (settings : Settings) (k : nat) (samples : list Dict)
  : Res (list DryRunResult) :=
  match samples with
  | [] => Ok []
  | listing :: rest =>
      let! entry := dry_run_entry settings k listing in
      if F.leb (PROFIT_MIN settings) (profit entry.2)
         && F.leb (MARGIN_MIN_PERCENT settings) (margin_percent entry.2)
      then Ok [entry.1]
      else
        let! more := dry_run_loop settings (S k) rest in
        Ok (entry.1 :: more)
  end.

(** [dry_run]: the first of the results, or the notice when there is
    none, goes to [JSONResponse]. *)
Definition dry_run (settings : Settings) : Res Response :=
  let! results := dry_run_loop settings 0 dry_run_samples in
  match results with
  | first :: _ => JSONResponse (FirstResult first)
  | [] => JSONResponse NoProfitable
  end.

End DryRun.

(** ** Vocabulary of the properties *)

(** The characters of a string. *)
Definition chars (s : string) : list ascii := list_ascii_of_string s.

(** [s.isascii()]: every character is below 128.  On such a text
    [str_upper], [str_lower] and [str_strip] are [upper], [lower] and
    [strip] of Python. *)
Definition str_isascii (s : string) : bool :=
  forallb (fun c => (nat_of_ascii c <? 128)%nat) (chars s).

(** The primary key of a row. *)
Definition row_key (r : SeenRow) : string * string := (row_marketplace r, row_listing_id r).

(** No two rows of the table share their primary key. *)
Definition unique_keys (table : list SeenRow) : Prop := NoDup (List.map row_key table).

(** A request that a transport accepted. *)
Definition is_ok_post (e : Event) : bool :=
  match e with
  | EvCloudPost _ ok | EvTwilioPost _ ok => ok
  | _ => false
  end.

Definition is_cloud_ok (e : Event) : bool :=
  match e with
  | EvCloudPost _ ok => ok
  | _ => false
  end.

Definition is_twilio_post (e : Event) : bool :=
  match e with
  | EvTwilioPost _ _ => true
  | _ => false
  end.

Definition is_fetch (e : Event) : bool :=
  match e with
  | EvFetch _ => true
  | _ => false
  end.

(** A computation of the cycle keeps a relation between the world it
    starts in and the world it leaves, whether it returns or raises. *)
Definition preserves (R : World -> World -> Prop) {A} (c : M A) : Prop :=
  forall w, R w (c w).2.

(** The relations every computation of the cycle keeps: they hold
    between a world and itself, compose, and hold across the two things
    a cycle does to the world, adding an event that is not a [mark_seen]
    and marking a key seen. *)
Record cycle_relation (R : World -> World -> Prop) : Prop := {
  cr_refl : forall w, R w w;
  cr_trans : forall a b c, R a b -> R b c -> R a c;
  cr_emit : forall w e,
    is_mark e = false -> R w {| seen := seen w; trace := e :: trace w |};
  cr_mark : forall w m i seen_at,
    R w {| seen := SeenStore.mark_seen (seen w) m i seen_at;
           trace := EvMarkSeen m i :: trace w |}
}.

(** From [w] to [w'] events were added, and a key is seen in [w'] exactly
    when it was seen in [w] or one of the added events is its
    [mark_seen]. *)
Definition store_follows_marks (w w' : World) : Prop :=
  exists events,
    trace w' = (events ++ trace w)%list
    /\ forall m i,
         SeenStore.has_seen (seen w') m i
         = SeenStore.has_seen (seen w) m i || existsb (is_mark_of m i) events.

(** Unique keys in [w] give unique keys in [w']. *)
Definition keys_stay_unique (w w' : World) : Prop :=
  unique_keys (seen w) -> unique_keys (seen w').

(** *** The database files

    [run_once] opens [SeenStore(settings.SQLITE_DB)]: the table of a
    cycle is the one in the file that its settings name. *)

(** The machine the cycles run on: the seen table of each database
    file, under the path that names it, and the events so far.  A file
    that is not there holds no row: opening the store creates the file
    and the table. *)
Record Host : Type := mkHost {
  files : gmap string (list SeenRow);
  events : list Event
}.

(** A path that names a database file.  To sqlite3 the paths [:memory:]
    and the empty one name a private database that is gone with the
    connection, and the store connects anew in every call. *)
Definition names_file (path : string) : bool :=
  negb (String.eqb path ":memory:") && negb (String.eqb path "").

(** The world of a cycle under [settings] on the machine [h]. *)
Definition open_store (settings : Settings) (h : Host) : World :=
  {| seen := default SeenStore.empty (files h !! SQLITE_DB settings);
     trace := events h |}.

(** The machine when a cycle under [settings] has left the world [w]. *)
Definition close_store (settings : Settings) (h : Host) (w : World) : Host :=
  {| files := <[SQLITE_DB settings := seen w]> (files h);
     events := trace w |}.

(** [run_once(settings)] on the machine. *)
Definition run_cycle (env : Env) (settings : Settings) (h : Host) : Res unit * Host :=
  let r := run_once env settings (open_store settings h) in
  (r.1, close_store settings h r.2).

(** A run of cycles, one after the other, each under its own settings. *)
Definition run_cycles (env : Env) (cycles : list Settings) (h : Host) : Host :=
  fold_left (fun h settings => (run_cycle env settings h).2) cycles h.

(** A response builder whose encoder refuses every message. *)
Definition refusing_response (content : DryRunContent) : Res string :=
  match content with
  | FirstResult _ => Raise (OtherError "UnicodeEncodeError")
  | NoProfitable => Ok "No profitable listings in dry run"
  end.

(** A machine without a database file. *)
Definition empty_host : Host := {| files := ∅; events := [] |}.

(** The default settings with another database file. *)
Definition other_db_settings : Settings :=
  {| ENABLE_EBAY := ENABLE_EBAY default_settings;
     ENABLE_VINTED := ENABLE_VINTED default_settings;
     WA_PHONE_ID := WA_PHONE_ID default_settings;
     WA_TOKEN := WA_TOKEN default_settings;
     RECIPIENT_PHONE := RECIPIENT_PHONE default_settings;
     TWILIO_ACCOUNT_SID := TWILIO_ACCOUNT_SID default_settings;
     TWILIO_AUTH_TOKEN := TWILIO_AUTH_TOKEN default_settings;
     TWILIO_WHATSAPP_FROM := TWILIO_WHATSAPP_FROM default_settings;
     PROFIT_MIN := PROFIT_MIN default_settings;
     MARGIN_MIN_PERCENT := MARGIN_MIN_PERCENT default_settings;
     KEYWORDS := KEYWORDS default_settings;
     MAX_PRICE := MAX_PRICE default_settings;
     REGEX_INCLUDE := REGEX_INCLUDE default_settings;
     REGEX_EXCLUDE := REGEX_EXCLUDE default_settings;
     CURRENCY := CURRENCY default_settings;
     POLL_INTERVAL := POLL_INTERVAL default_settings;
     VALUATION_STRATEGY := VALUATION_STRATEGY default_settings;
     SHIPPING_TABLE_JSON := SHIPPING_TABLE_JSON default_settings;
     SQLITE_DB := "other.db" |}.

(** An environment that rejects every regular expression. *)
Definition picky_env : Env :=
  {| float_of_str := float_of_str silent_env;
     json_loads_object := json_loads_object silent_env;
     re_valid := fun _ => false;
     re_search := re_search silent_env;
     ebay_fetch_listings := ebay_fetch_listings shop_env;
     vinted_fetch_listings := vinted_fetch_listings shop_env;
     cloud_post_ok := cloud_post_ok silent_env;
     twilio_post_ok := twilio_post_ok silent_env;
     utcnow_iso := utcnow_iso silent_env;
     float_repr := float_repr silent_env;
     sqlite_real_text := sqlite_real_text silent_env |}.

(** An environment in which the eBay fetcher raises and Vinted answers. *)
Definition flaky_env : Env :=
  {| float_of_str := float_of_str silent_env;
     json_loads_object := json_loads_object silent_env;
     re_valid := re_valid silent_env;
     re_search := re_search silent_env;
     ebay_fetch_listings := fun _ _ _ => Raise (OtherError "boom");
     vinted_fetch_listings := vinted_fetch_listings shop_env;
     cloud_post_ok := cloud_post_ok silent_env;
     twilio_post_ok := twilio_post_ok silent_env;
     utcnow_iso := utcnow_iso silent_env;
     float_repr := float_repr silent_env;
     sqlite_real_text := sqlite_real_text silent_env |}.

(** The sample settings with both marketplaces on and strategy C. *)
Definition both_settings : Settings := with_strategy odd_settings "C".

(** The sample settings with an include filter. *)
Definition filter_settings : Settings :=
  {| ENABLE_EBAY := true; ENABLE_VINTED := true;
     WA_PHONE_ID := None; WA_TOKEN := None; RECIPIENT_PHONE := None;
     TWILIO_ACCOUNT_SID := None; TWILIO_AUTH_TOKEN := None; TWILIO_WHATSAPP_FROM := None;
     PROFIT_MIN := F.of_Z 10; MARGIN_MIN_PERCENT := F.of_Z 20;
     KEYWORDS := "driver, putter";
     MAX_PRICE := None; REGEX_INCLUDE := Some "(driver"; REGEX_EXCLUDE := None;
     CURRENCY := "GBP"; POLL_INTERVAL := 5; VALUATION_STRATEGY := "C";
     SHIPPING_TABLE_JSON := None; SQLITE_DB := "seen.db" |}.

(** A listing whose price is the float infinity. *)
Definition infinite_listing : Dict :=
  make_listing "ebay" (VStr "inf1") (VStr "Priceless putter") (VStr "good")
    VNone VNone (VFloat (S754_infinity false)) (VFloat (F.of_Z 4)).

(** A listing without an identifier. *)
Definition anonymous_listing : Dict :=
  make_listing "ebay" VNone (VStr "Nameless wedge") (VStr "good")
    VNone VNone (VFloat (F.of_Z 30)) VNone.

(** An environment whose [float] reads the text "0". *)
Definition zero_env : Env :=
  {| float_of_str := fun s => if String.eqb s "0" then Some F.zero else None;
     json_loads_object := json_loads_object silent_env;
     re_valid := re_valid silent_env;
     re_search := re_search silent_env;
     ebay_fetch_listings := ebay_fetch_listings silent_env;
     vinted_fetch_listings := vinted_fetch_listings silent_env;
     cloud_post_ok := cloud_post_ok silent_env;
     twilio_post_ok := twilio_post_ok silent_env;
     utcnow_iso := utcnow_iso silent_env;
     float_repr := float_repr silent_env;
     sqlite_real_text := sqlite_real_text silent_env |}.

(** A process environment that sets the two thresholds to "0". *)
Definition zero_thresholds (name : string) : option string :=
  if String.eqb name "PROFIT_MIN" || String.eqb name "MARGIN_MIN_PERCENT"
  then Some "0" else None.

(** A sample the dry run can value and render: a numeric price, a
    shipping cost that is a number or nothing, brand and model that are
    strings or nothing, and the four keys that are read by subscript. *)
Definition sample_ready (listing : Dict) : Prop :=
  (exists p, listing !! "price" = Some (VFloat p))
  /\ opt_number (listing !! "shipping_cost")
  /\ opt_text (listing !! "brand")
  /\ opt_text (listing !! "model")
  /\ is_Some (listing !! "marketplace")
  /\ is_Some (listing !! "listing_id")
  /\ is_Some (listing !! "title")
  /\ is_Some (listing !! "url").

(** The eleven keys of a listing. *)
Definition listing_keys : gset string :=
  list_to_set ["marketplace"; "listing_id"; "title"; "url"; "brand"; "model";
               "condition"; "price"; "currency"; "shipping_cost"; "location"].

(** An item summary of eBay that carries a currency but no price value. *)
Definition unpriced_item : Json :=
  JObj {[ "itemId" := JStr "v1|123|0"; "title" := JStr "Titleist putter";
          "itemWebUrl" := JStr "https://example.com/item";
          "condition" := JStr "Good";
          "price" := JObj {[ "currency" := JStr "GBP" ]} ]}.

(** Two Vinted items without an [id]. *)
Definition nameless_item (title : string) : Json :=
  JObj {[ "title" := JStr title; "price" := JObj {[ "numeric" := JInt 12 ]} ]}.

(** A listing whose shipping cost is a text that is not a number. *)
Definition odd_shipping_listing : Dict :=
  {[ "price" := VFloat (F.of_Z 100); "shipping_cost" := VStr "free" ]}.

(** A listing given away: price 0.0 and no shipping cost. *)
Definition free_listing : Dict := {[ "price" := VFloat F.zero ]}.

(** A listing without the key [price]. *)
Definition priceless_listing : Dict := {[ "shipping_cost" := VFloat (F.of_Z 5) ]}.

(** Strategy B with a profit threshold that no sample of the dry run
    meets. *)
Definition demanding_settings : Settings :=
  {| ENABLE_EBAY := true; ENABLE_VINTED := false;
     WA_PHONE_ID := None; WA_TOKEN := None; RECIPIENT_PHONE := None;
     TWILIO_ACCOUNT_SID := None; TWILIO_AUTH_TOKEN := None; TWILIO_WHATSAPP_FROM := None;
     PROFIT_MIN := F.of_Z 1000; MARGIN_MIN_PERCENT := F.of_Z 20;
     KEYWORDS := "driver";
     MAX_PRICE := None; REGEX_INCLUDE := None; REGEX_EXCLUDE := None;
     CURRENCY := "GBP"; POLL_INTERVAL := 5; VALUATION_STRATEGY := "B";
     SHIPPING_TABLE_JSON := None; SQLITE_DB := "seen.db" |}.

(** The breakdown of [good_listing] under the default settings. *)
Definition good_breakdown : Breakdown :=
  {| product_cost := F.of_Z 80; buyer_protection_cost := F.of_Z 4;
     shipping_cost := F.of_Z 4; total_cost := F.of_Z 88;
     potential_resale_value := F.of_Z 120; profit := F.of_Z 32;
     margin_percent := F.of_ratio 3636 100 |}.

(** * Properties *)

(** ** The seen table *)

Module SeenStoreFacts.
Import SeenStore.

Lemma key_matches_eq m i r :
  key_matches m i r = true <-> row_marketplace r = m /\ row_listing_id r = i.
Proof.
  unfold key_matches. rewrite andb_true_iff, !String.eqb_eq. reflexivity.
Qed.

Lemma key_matches_new m i ts : key_matches m i (mkRow m i ts) = true.
Proof. apply key_matches_eq. split; reflexivity. Qed.

Lemma key_matches_other m1 i1 m2 i2 r :
  ~ (m1 = m2 /\ i1 = i2) ->
  key_matches m1 i1 r = true -> key_matches m2 i2 r = false.
Proof.
  intros Hne H1. destruct (key_matches m2 i2 r) eqn:H2; [|reflexivity].
  apply key_matches_eq in H1, H2. destruct H1 as [<- <-], H2 as [<- <-].
  exfalso. apply Hne. split; reflexivity.
Qed.

(** Deleting the rows of one key leaves no row of that key. *)
Lemma select_after_delete table m i :
  List.filter (key_matches m i)
    (List.filter (fun r => negb (key_matches m i r)) table) = [].
Proof.
  induction table as [|r table IH]; simpl; [reflexivity|].
  destruct (key_matches m i r) eqn:E; simpl; [exact IH|].
  rewrite E. exact IH.
Qed.

(** Deleting the rows of one key leaves the rows of another alone. *)
Lemma select_delete_other table m1 i1 m2 i2 :
  ~ (m1 = m2 /\ i1 = i2) ->
  List.filter (key_matches m2 i2)
    (List.filter (fun r => negb (key_matches m1 i1 r)) table)
  = List.filter (key_matches m2 i2) table.
Proof.
  intros Hne. induction table as [|r table IH]; simpl; [reflexivity|].
  destruct (key_matches m1 i1 r) eqn:E1; simpl.
  - rewrite (key_matches_other _ _ _ _ _ Hne E1). exact IH.
  - destruct (key_matches m2 i2 r); [f_equal|]; exact IH.
Qed.

Lemma select_mark_same table m i ts :
  select (mark_seen table m i ts) m i = [mkRow m i ts].
Proof.
  unfold select, mark_seen. rewrite List.filter_app, select_after_delete.
  simpl. rewrite key_matches_new. reflexivity.
Qed.

Lemma select_mark_other table m1 i1 ts m2 i2 :
  ~ (m1 = m2 /\ i1 = i2) ->
  select (mark_seen table m1 i1 ts) m2 i2 = select table m2 i2.
Proof.
  intros Hne. unfold select, mark_seen.
  rewrite List.filter_app, (select_delete_other _ _ _ _ _ Hne). simpl.
  rewrite (key_matches_other m1 i1 m2 i2 _ Hne (key_matches_new m1 i1 ts)).
  apply app_nil_r.
Qed.

Lemma has_seen_mark_same table m i ts : has_seen (mark_seen table m i ts) m i = true.
Proof. unfold has_seen. rewrite select_mark_same. reflexivity. Qed.

Lemma has_seen_mark_other table m1 i1 ts m2 i2 :
  ~ (m1 = m2 /\ i1 = i2) ->
  has_seen (mark_seen table m1 i1 ts) m2 i2 = has_seen table m2 i2.
Proof. intros Hne. unfold has_seen. rewrite (select_mark_other _ _ _ _ _ _ Hne). reflexivity. Qed.

Lemma has_seen_mark_all_others calls table m i :
  Forall (fun c => ~ (c.1.1 = m /\ c.1.2 = i)) calls ->
  has_seen (mark_all calls table) m i = has_seen table m i.
Proof.
  intros Hcalls. revert table.
  induction Hcalls as [|c calls Hc _ IH]; intros table; simpl; [reflexivity|].
  rewrite IH. apply has_seen_mark_other. exact Hc.
Qed.

(** C8.  On a store that starts empty, [has_seen] answers false for a
    key as long as no [mark_seen] call was made for that key, whatever
    calls were made for other keys; on any table it answers true right
    after [mark_seen] for the key; and after two [mark_seen] calls for
    the same key the table holds exactly one row for it, the one of
    the second call, and the same keys as after the first call. *)
Theorem mark_seen_has_seen_one_row
    (calls : list (string * string * string)) (table : list SeenRow)
    (m i ts1 ts2 : string) :
  Forall (fun c => ~ (c.1.1 = m /\ c.1.2 = i)) calls ->
  has_seen (mark_all calls empty) m i = false
  /\ has_seen (mark_seen table m i ts1) m i = true
  /\ select (mark_seen (mark_seen table m i ts1) m i ts2) m i = [mkRow m i ts2]
  /\ forall m' i',
       has_seen (mark_seen (mark_seen table m i ts1) m i ts2) m' i'
       = has_seen (mark_seen table m i ts1) m' i'.
Proof.
  intros Hcalls. repeat split.
  - rewrite (has_seen_mark_all_others _ _ _ _ Hcalls). reflexivity.
  - apply has_seen_mark_same.
  - apply select_mark_same.
  - intros m' i'.
    destruct (decide (m = m' /\ i = i')) as [[<- <-]|Hne].
    + rewrite !has_seen_mark_same. reflexivity.
    + apply has_seen_mark_other. exact Hne.
Qed.

Lemma mark_seen_has_seen_one_row_witness :
  has_seen (mark_all [("ebay", "1", "t0"); ("vinted", "2", "t1")] empty) "ebay" "2" = false
  /\ select (mark_seen (mark_seen [mkRow "ebay" "2" "old"] "ebay" "2" "t2") "ebay" "2" "t3")
       "ebay" "2" = [mkRow "ebay" "2" "t3"].
Proof.
  destruct (mark_seen_has_seen_one_row
              [("ebay", "1", "t0"); ("vinted", "2", "t1")] [mkRow "ebay" "2" "old"]
              "ebay" "2" "t2" "t3") as (H1 & _ & H3 & _).
  - repeat constructor; simpl; intros [H1 H2]; discriminate.
  - split; [exact H1|exact H3].
Defined.

(** C10.  For two distinct keys, [mark_seen] on the first leaves the
    answer of [has_seen] on the second as it was. *)
Theorem mark_seen_frame (table : list SeenRow) (m1 i1 m2 i2 seen_at : string) :
  (m1, i1) <> (m2, i2) ->
  has_seen (mark_seen table m1 i1 seen_at) m2 i2 = has_seen table m2 i2.
Proof.
  intros Hne. apply has_seen_mark_other.
  intros [-> ->]. apply Hne. reflexivity.
Qed.

Lemma mark_seen_frame_witness :
  ("ebay", "1") <> ("vinted", "1")
  /\ has_seen (mark_seen [mkRow "vinted" "1" "t0"] "ebay" "1" "t1") "vinted" "1"
     = has_seen [mkRow "vinted" "1" "t0"] "vinted" "1".
Proof.
  assert (Hne : ("ebay", "1") <> ("vinted", "1")) by discriminate.
  split; [exact Hne|].
  exact (mark_seen_frame [mkRow "vinted" "1" "t0"] "ebay" "1" "vinted" "1" "t1" Hne).
Defined.

End SeenStoreFacts.

(** ** Valuation *)

Section ValuationFacts.

Context (env : Env).

(** A price bound to [None] is not replaced by the default of [get]. *)
Lemma compute_profit_null_price listing settings :
  listing !! "price" = Some VNone ->
  compute_profit env listing settings = Raise TypeError.
Proof.
  intros Hprice. unfold compute_profit, dict_get_or. rewrite Hprice. reflexivity.
Qed.

(** The sibling [estimate_resale_value] does take the same listing. *)
Lemma estimate_resale_value_null_price listing settings :
  listing !! "price" = Some VNone ->
  estimate_resale_value listing settings = Ok None.
Proof.
  intros Hprice. unfold estimate_resale_value, dict_get. rewrite Hprice. reflexivity.
Qed.

(** With the key [price] absent the default 0.0 is used. *)
Lemma compute_profit_absent_price listing settings shipping :
  listing !! "price" = None ->
  lookup_shipping_cost env listing settings = Ok shipping ->
  exists b,
    compute_profit env listing settings = Ok b
    /\ product_cost b = F.zero /\ buyer_protection_cost b = F.zero
    /\ potential_resale_value b = F.zero
    /\ profit b = F.zero /\ margin_percent b = F.zero.
Proof.
  intros Hprice Hship.
  unfold compute_profit, estimate_resale_value, dict_get_or, dict_get.
  rewrite Hprice, Hship. simpl. eexists. split; [reflexivity|].
  simpl. repeat split; reflexivity.
Qed.

(** C3, at the listing the eBay fetcher builds for an item without a
    price value: [compute_profit] raises [TypeError], it does not take
    the price for 0.0. *)
Theorem compute_profit_unpriced_raises (settings : Settings) :
  compute_profit env unpriced_listing settings = Raise TypeError.
Proof. apply compute_profit_null_price. reflexivity. Qed.

Lemma estimate_resale_value_C listing settings price :
  VALUATION_STRATEGY settings = "C" ->
  listing !! "price" = Some (VFloat price) ->
  estimate_resale_value listing settings
  = Ok (Some (F.round2 (F.mul price (F.of_ratio 15 10)))).
Proof.
  intros Hs Hp. unfold estimate_resale_value, dict_get. rewrite Hp, Hs. reflexivity.
Qed.

(** C6.  Price 100, declared shipping 5, strategy C: buyer protection
    5.00, total cost 110.00, resale value 150.00, profit 40.00 and
    margin 36.36 (the double nearest to 3636/100); the two remaining
    fields are the product cost 100.00 and the shipping cost 5.00. *)
Theorem compute_profit_heuristic (settings : Settings) :
  VALUATION_STRATEGY settings = "C" ->
  compute_profit env test_listing settings
  = Ok {| product_cost := F.of_Z 100;
          buyer_protection_cost := F.of_Z 5;
          shipping_cost := F.of_Z 5;
          total_cost := F.of_Z 110;
          potential_resale_value := F.of_Z 150;
          profit := F.of_Z 40;
          margin_percent := F.of_ratio 3636 100 |}.
Proof.
  intros Hs. unfold compute_profit.
  rewrite (estimate_resale_value_C test_listing settings (F.of_Z 100) Hs) by reflexivity.
  vm_compute. reflexivity.
Qed.

(** The branch of the policy: whenever the costs of a listing are
    computed and its resale value is unresolved, [compute_profit]
    returns a breakdown whose profit and margin are 0.0 (and whose
    resale value reads 0.0), whatever the costs are; the costs are
    reported as computed. *)
Theorem unresolved_resale_zero_profit
    (listing : Dict) (settings : Settings) (price : float) (shipping : option float) :
  py_float env (dict_get_or listing "price" (VFloat F.zero)) = Ok price ->
  lookup_shipping_cost env listing settings = Ok shipping ->
  estimate_resale_value listing settings = Ok None ->
  let cost := F.round2 price in
  let fee := compute_buyer_protection_cost cost settings in
  compute_profit env listing settings
  = Ok {| product_cost := F.round2 cost;
          buyer_protection_cost := F.round2 fee;
          shipping_cost := match shipping with Some s => F.round2 s | None => F.zero end;
          total_cost :=
            F.round2 (match shipping with
                      | Some s => F.add (F.add cost fee) s
                      | None => F.add cost fee
                      end);
          potential_resale_value := F.zero;
          profit := F.zero;
          margin_percent := F.zero |}.
Proof.
  intros Hprice Hship Hresale cost fee. unfold compute_profit.
  rewrite Hprice, Hship, Hresale. reflexivity.
Qed.

(** C7, at a listing whose price is bound to [None], as the fetchers
    build it for an item without a price: [estimate_resale_value] tests
    [price is None] and leaves the resale value unresolved, under every
    strategy, and [compute_profit] raises [TypeError] at [float(None)]
    before it comes to the branch that sets profit and margin to 0.0. *)
Theorem unresolved_resale_null_price_raises (listing : Dict) (settings : Settings) :
  listing !! "price" = Some VNone ->
  estimate_resale_value listing settings = Ok None
  /\ compute_profit env listing settings = Raise TypeError.
Proof.
  intros Hprice. split.
  - apply estimate_resale_value_null_price. exact Hprice.
  - apply compute_profit_null_price. exact Hprice.
Qed.

(** Strategy B on a listing the table does not know: unresolved. *)
Lemma estimate_resale_value_B_no_match listing settings price brand model :
  str_upper (VALUATION_STRATEGY settings) = "B" ->
  listing !! "price" = Some (VFloat price) ->
  py_lower (py_or (dict_get listing "brand") (VStr "")) = Ok brand ->
  py_lower (py_or (dict_get listing "model") (VStr "")) = Ok model ->
  static_prices !! (brand ++ "|" ++ model) = None ->
  estimate_resale_value listing settings = Ok None.
Proof.
  intros Hs Hp Hb Hm Hkey. unfold estimate_resale_value, dict_get at 1.
  rewrite Hp, Hs. simpl. rewrite Hb, Hm. simpl. rewrite Hkey. reflexivity.
Qed.

End ValuationFacts.

Lemma compute_profit_heuristic_witness :
  exists b, compute_profit silent_env test_listing default_settings = Ok b
            /\ F.fmt2 (buyer_protection_cost b) = "5.00"
            /\ F.fmt2 (total_cost b) = "110.00"
            /\ F.fmt2 (potential_resale_value b) = "150.00"
            /\ F.fmt2 (profit b) = "40.00"
            /\ F.fmt2 (margin_percent b) = "36.36".
Proof.
  eexists. split.
  - apply (compute_profit_heuristic silent_env default_settings). reflexivity.
  - vm_compute. repeat split; reflexivity.
Defined.

Lemma unresolved_resale_zero_profit_witness :
  exists b,
    compute_profit silent_env unlisted_listing (with_strategy default_settings "B") = Ok b
    /\ profit b = F.zero /\ margin_percent b = F.zero
    /\ F.fmt2 (total_cost b) = "100.50".
Proof.
  eexists. split.
  - apply (unresolved_resale_zero_profit silent_env unlisted_listing
             (with_strategy default_settings "B") (F.of_Z 90)
             (Some (F.round2 (F.of_Z 6)))).
    + reflexivity.
    + reflexivity.
    + vm_compute. reflexivity.
  - vm_compute. repeat split; reflexivity.
Defined.

Lemma unresolved_resale_null_price_raises_witness :
  estimate_resale_value unpriced_listing (with_strategy default_settings "B") = Ok None
  /\ compute_profit silent_env unpriced_listing (with_strategy default_settings "B")
     = Raise TypeError.
Proof.
  apply (unresolved_resale_null_price_raises silent_env unpriced_listing
           (with_strategy default_settings "B")).
  reflexivity.
Defined.

(** *** The strategy selector *)

Lemma estimate_resale_value_upper listing settings canonical :
  str_upper canonical = canonical ->
  str_upper (VALUATION_STRATEGY settings) = canonical ->
  estimate_resale_value listing settings
  = estimate_resale_value listing (with_strategy settings canonical).
Proof.
  intros Hcanon Hs. unfold estimate_resale_value. simpl. rewrite Hs, Hcanon. reflexivity.
Qed.

Lemma py_lower_opt_text (listing : Dict) key :
  opt_text (listing !! key) ->
  exists s, py_lower (py_or (dict_get listing key) (VStr "")) = Ok s.
Proof.
  unfold opt_text, dict_get, py_or. intros Htext.
  destruct (listing !! key) as [[| x | s]|]; simpl in *; try contradiction; eauto.
  destruct (negb (String.eqb s "")); simpl; eauto.
Qed.

(** C9.  The selector is compared after [upper()]: a configuration
    whose strategy uppercases to "A", "B" or "C" is valued exactly as
    the configuration holding that letter, which the lower-case letters
    "a", "b" and "c" do; and on a listing whose price is a number or
    nothing and whose brand and model are strings or nothing, the only
    exception is the [ValueError] for an uppercased strategy that is
    none of the three. *)
Theorem strategy_selector_ignores_case (listing : Dict) (settings : Settings) :
  let strategy := str_upper (VALUATION_STRATEGY settings) in
  (strategy = "A" ->
   estimate_resale_value listing settings
   = estimate_resale_value listing (with_strategy settings "A"))
  /\ (strategy = "B" ->
      estimate_resale_value listing settings
      = estimate_resale_value listing (with_strategy settings "B"))
  /\ (strategy = "C" ->
      estimate_resale_value listing settings
      = estimate_resale_value listing (with_strategy settings "C"))
  /\ (str_upper "a" = "A" /\ str_upper "b" = "B" /\ str_upper "c" = "C")
  /\ (opt_number (listing !! "price") ->
      opt_text (listing !! "brand") ->
      opt_text (listing !! "model") ->
      forall e,
        estimate_resale_value listing settings = Raise e ->
        strategy <> "A" /\ strategy <> "B" /\ strategy <> "C"
        /\ e = ValueError ("Unknown valuation strategy: " ++ strategy)).
Proof.
  intros strategy. subst strategy.
  split; [|split; [|split; [|split]]].
  - apply estimate_resale_value_upper. reflexivity.
  - apply estimate_resale_value_upper. reflexivity.
  - apply estimate_resale_value_upper. reflexivity.
  - repeat split; reflexivity.
  - intros Hprice Hbrand Hmodel e.
    destruct (py_lower_opt_text listing "brand" Hbrand) as [b Hb].
    destruct (py_lower_opt_text listing "model" Hmodel) as [m Hm].
    assert (Hcases : dict_get listing "price" = VNone
                     \/ exists x, dict_get listing "price" = VFloat x).
    { unfold dict_get, opt_number in *.
      destruct (listing !! "price") as [[| x | s]|]; simpl in *; eauto; contradiction. }
    unfold estimate_resale_value.
    destruct Hcases as [-> | [x ->]]; [discriminate|].
    cbn [py_mul_float res_bind].
    repeat case_decide; cbn [res_bind]; try discriminate.
    + rewrite Hb, Hm. cbn [res_bind]. discriminate.
    + intros [= <-]. repeat split; assumption.
Qed.

Lemma strategy_selector_ignores_case_witness :
  estimate_resale_value good_listing (with_strategy default_settings "b")
  = estimate_resale_value good_listing (with_strategy (with_strategy default_settings "b") "B")
  /\ estimate_resale_value good_listing (with_strategy default_settings "b")
     = Ok (Some (F.of_Z 130)).
Proof.
  split.
  - apply (strategy_selector_ignores_case good_listing (with_strategy default_settings "b")).
    reflexivity.
  - vm_compute. reflexivity.
Defined.

(** ** The polling cycle *)

Section WorkerFacts.

Context (env : Env).

Lemma truthy_id i : i <> "" -> truthy (VStr i) = true.
Proof.
  intros Hi. simpl. destruct (String.eqb_spec i ""); [contradiction|reflexivity].
Qed.

Lemma run_once_listing_valuated settings ri re listing w m i :
  reaches_valuation env ri re listing w m i ->
  run_once_listing env settings ri re listing w
  = match compute_profit env listing settings with
    | Ok b =>
        if below_thresholds settings b
        then seen_store_mark_seen env (VStr m) (VStr i) w
        else notify_and_mark env settings listing (VStr m) (VStr i) b w
    | Raise e => (Raise e, w)
    end.
Proof.
  intros [Hm Hi Hset Hunseen Hinc Hexc Hcond].
  unfold run_once_listing, notify_and_mark, bind, lift, getitem, seen_store_has_seen.
  rewrite Hm, Hi, (truthy_id i Hset). cbn [negb sql_text].
  rewrite Hunseen, Hinc, Hexc, Hcond.
  destruct (compute_profit env listing settings) as [b|e]; [|reflexivity].
  destruct (below_thresholds settings b); reflexivity.
Qed.

Lemma mark_seen_step m i w :
  seen_store_mark_seen env (VStr m) (VStr i) w
  = (Ok tt,
     {| seen := SeenStore.mark_seen (seen w) m i (utcnow_iso env (length (trace w)));
        trace := EvMarkSeen m i :: trace w |}).
Proof. reflexivity. Qed.

Lemma count_cons kind e events :
  count kind (e :: events) = (if kind e then S (count kind events) else count kind events).
Proof. unfold count. simpl. destruct (kind e); reflexivity. Qed.

Lemma is_mark_of_same m i : is_mark_of m i (EvMarkSeen m i) = true.
Proof. simpl. rewrite !String.eqb_refl. reflexivity. Qed.

(** [send] returns a flag and never raises; it is one call, it leaves
    the store alone and marks nothing. *)
Lemma send_spec settings message w :
  exists sent w',
    send env settings message w = (Ok sent, w')
    /\ seen w' = seen w
    /\ count is_send (trace w') = S (count is_send (trace w))
    /\ count is_mark (trace w') = count is_mark (trace w)
    /\ forall m i, count (is_mark_of m i) (trace w') = count (is_mark_of m i) (trace w).
Proof.
  unfold send, send_fallback, _send_cloud, _send_twilio, bind, emit, moment, ret.
  cbn [seen trace].
  repeat match goal with
         | |- context [if ?c then _ else _] => destruct c; cbn [seen trace]
         end;
    do 2 eexists; (split; [reflexivity|]); cbn [seen trace];
    repeat split; intros; rewrite ?count_cons; reflexivity.
Qed.

Lemma format_message_ok settings listing b title url :
  listing !! "title" = Some title ->
  listing !! "url" = Some url ->
  exists message, format_message env listing b settings = Ok message.
Proof.
  intros Ht Hu. unfold format_message, getitem. rewrite Ht, Hu.
  cbn [res_bind]. eexists. reflexivity.
Qed.

(** Once the message is formatted, the notifying branch sends once and
    marks once, whatever [send] answers. *)
Lemma notify_and_mark_spec settings listing m i b w message :
  format_message env listing b settings = Ok message ->
  exists w',
    notify_and_mark env settings listing (VStr m) (VStr i) b w = (Ok tt, w')
    /\ count is_send (trace w') = S (count is_send (trace w))
    /\ count is_mark (trace w') = S (count is_mark (trace w))
    /\ count (is_mark_of m i) (trace w') = S (count (is_mark_of m i) (trace w))
    /\ SeenStore.has_seen (seen w') m i = true.
Proof.
  intros Hmsg.
  destruct (send_spec settings message w)
    as (sent & w1 & Hsend & Hseen & Hcount & Hmark & Hmarks).
  unfold notify_and_mark, bind, lift. rewrite Hmsg, Hsend.
  destruct sent; unfold emit, ret, moment; rewrite mark_seen_step; cbn [seen trace];
    eexists; (split; [reflexivity|]); cbn [seen trace];
    rewrite ?count_cons; cbn [is_send is_mark is_mark_of]; rewrite ?String.eqb_refl;
    cbn [andb]; rewrite ?Hcount, ?Hmark, ?Hmarks;
    (repeat split; [reflexivity..|apply SeenStoreFacts.has_seen_mark_same]).
Qed.

(** C5.  A listing that arrives at the valuation with a profit below
    [PROFIT_MIN] or a margin below [MARGIN_MIN_PERCENT] is marked seen,
    and that is all that happens: the single new event is the
    [mark_seen] of its key, so the notifier is not called and no
    transport is tried. *)
Theorem below_threshold_marked_not_notified
    (settings : Settings) (ri re : option string) (listing : Dict) (w : World)
    (m i : string) (b : Breakdown) :
  reaches_valuation env ri re listing w m i ->
  compute_profit env listing settings = Ok b ->
  F.ltb (profit b) (PROFIT_MIN settings) = true
  \/ F.ltb (margin_percent b) (MARGIN_MIN_PERCENT settings) = true ->
  exists w',
    run_once_listing env settings ri re listing w = (Ok tt, w')
    /\ trace w' = EvMarkSeen m i :: trace w
    /\ count is_send (trace w') = count is_send (trace w)
    /\ count is_post (trace w') = count is_post (trace w)
    /\ SeenStore.has_seen (seen w') m i = true.
Proof.
  intros Hreach Hb Hlow.
  rewrite (run_once_listing_valuated settings ri re listing w m i Hreach), Hb.
  assert (Hbelow : below_thresholds settings b = true).
  { unfold below_thresholds. apply orb_true_iff. exact Hlow. }
  rewrite Hbelow, mark_seen_step. eexists. split; [reflexivity|].
  cbn [seen trace]. repeat split.
  apply SeenStoreFacts.has_seen_mark_same.
Qed.

(** Comparing the other way round gives the opposite answer. *)
Lemma SFcompare_antisym a b : SFcompare b a = option_map CompOpp (SFcompare a b).
Proof.
  destruct a as [[]|[]| |[] ma ea], b as [[]|[]| |[] mb eb]; try reflexivity; simpl;
    rewrite (Z.compare_antisym eb ea); destruct (eb ?= ea)%Z; simpl; try reflexivity;
    rewrite (Pos.compare_cont_antisym ma mb Eq); reflexivity.
Qed.

(** A comparison [a >= b] that holds makes [a < b] fail. *)
Lemma leb_not_ltb a b : F.leb b a = true -> F.ltb a b = false.
Proof.
  unfold F.leb, F.ltb, SFleb, SFltb. rewrite (SFcompare_antisym a b).
  destruct (SFcompare a b) as [[]|]; simpl; try reflexivity; discriminate.
Qed.

(** C1.  A listing that arrives at the valuation and meets both
    thresholds is processed without error with exactly one call of
    [WhatsAppNotifier.send] and exactly one [mark_seen], for its own
    key, and is in the store afterwards; this holds for every answer
    of the transports, a failed send included. *)
Theorem notified_once_marked_once
    (settings : Settings) (ri re : option string) (listing : Dict) (w : World)
    (m i : string) (b : Breakdown) (title url : PyVal) :
  reaches_valuation env ri re listing w m i ->
  listing !! "title" = Some title ->
  listing !! "url" = Some url ->
  compute_profit env listing settings = Ok b ->
  F.leb (PROFIT_MIN settings) (profit b) = true ->
  F.leb (MARGIN_MIN_PERCENT settings) (margin_percent b) = true ->
  exists w',
    run_once_listing env settings ri re listing w = (Ok tt, w')
    /\ count is_send (trace w') = S (count is_send (trace w))
    /\ count is_mark (trace w') = S (count is_mark (trace w))
    /\ count (is_mark_of m i) (trace w') = S (count (is_mark_of m i) (trace w))
    /\ SeenStore.has_seen (seen w') m i = true.
Proof.
  intros Hreach Htitle Hurl Hb Hprofit Hmargin.
  rewrite (run_once_listing_valuated settings ri re listing w m i Hreach), Hb.
  assert (Hbelow : below_thresholds settings b = false).
  { unfold below_thresholds.
    rewrite (leb_not_ltb _ _ Hprofit), (leb_not_ltb _ _ Hmargin). reflexivity. }
  rewrite Hbelow.
  destruct (format_message_ok settings listing b title url Htitle Hurl) as [message Hmsg].
  exact (notify_and_mark_spec settings listing m i b w message Hmsg).
Qed.

(** The same listing when a check before the valuation turns it down:
    the body ends at the [continue], the world is untouched. *)
Lemma run_once_listing_filtered settings ri re listing w m i :
  listing !! "marketplace" = Some (VStr m) ->
  listing !! "listing_id" = Some (VStr i) ->
  i <> "" ->
  SeenStore.has_seen (seen w) m i = false ->
  let title := dict_get_or listing "title" (VStr "") in
  let cond := py_or (dict_get listing "condition") (VStr "") in
  include_rejects env ri title = Ok true
  \/ (include_rejects env ri title = Ok false /\ exclude_rejects env re title = Ok true)
  \/ (include_rejects env ri title = Ok false /\ exclude_rejects env re title = Ok false
      /\ condition_rejects cond = Ok true) ->
  run_once_listing env settings ri re listing w = (Ok tt, w).
Proof.
  intros Hm Hi Hset Hunseen title cond Hrej.
  unfold run_once_listing, bind, lift, getitem, seen_store_has_seen.
  rewrite Hm, Hi, (truthy_id i Hset). cbn [negb sql_text]. rewrite Hunseen.
  fold title. fold cond.
  destruct Hrej as [Hinc | [[Hinc Hexc] | (Hinc & Hexc & Hcond)]].
  - rewrite Hinc. reflexivity.
  - rewrite Hinc, Hexc. reflexivity.
  - rewrite Hinc, Hexc, Hcond. reflexivity.
Qed.

(** A listing found in the store is skipped, the world is untouched. *)
Lemma run_once_listing_seen settings ri re listing w m i :
  listing !! "marketplace" = Some (VStr m) ->
  listing !! "listing_id" = Some (VStr i) ->
  i <> "" ->
  SeenStore.has_seen (seen w) m i = true ->
  run_once_listing env settings ri re listing w = (Ok tt, w).
Proof.
  intros Hm Hi Hset Hseen.
  unfold run_once_listing, bind, lift, getitem, seen_store_has_seen.
  rewrite Hm, Hi, (truthy_id i Hset). cbn [negb sql_text]. rewrite Hseen. reflexivity.
Qed.

(** C2, as the code has it.  A listing that carries an identifier and
    is not in the store is marked seen by every run of the loop body
    that goes through the include, exclude and condition filters and
    ends without an exception; a listing that one of the three filters
    turns down is skipped, and the store and the trace stay as they
    were: it is not marked seen. *)
Theorem marked_seen_when_filters_pass
    (settings : Settings) (ri re : option string) (listing : Dict) (w w' : World)
    (m i : string) :
  listing !! "marketplace" = Some (VStr m) ->
  listing !! "listing_id" = Some (VStr i) ->
  i <> "" ->
  SeenStore.has_seen (seen w) m i = false ->
  run_once_listing env settings ri re listing w = (Ok tt, w') ->
  let title := dict_get_or listing "title" (VStr "") in
  let cond := py_or (dict_get listing "condition") (VStr "") in
  (include_rejects env ri title = Ok false ->
   exclude_rejects env re title = Ok false ->
   condition_rejects cond = Ok false ->
   SeenStore.has_seen (seen w') m i = true
   /\ count (is_mark_of m i) (trace w') = S (count (is_mark_of m i) (trace w)))
  /\ (include_rejects env ri title = Ok true
      \/ (include_rejects env ri title = Ok false /\ exclude_rejects env re title = Ok true)
      \/ (include_rejects env ri title = Ok false /\ exclude_rejects env re title = Ok false
          /\ condition_rejects cond = Ok true) ->
      w' = w /\ SeenStore.has_seen (seen w') m i = false).
Proof.
  intros Hm Hi Hset Hunseen Hrun title cond. split.
  - intros Hinc Hexc Hcond.
    assert (Hreach : reaches_valuation env ri re listing w m i) by (constructor; assumption).
    rewrite (run_once_listing_valuated settings ri re listing w m i Hreach) in Hrun.
    destruct (compute_profit env listing settings) as [b|e]; [|discriminate].
    destruct (below_thresholds settings b).
    + rewrite mark_seen_step in Hrun. injection Hrun as <-. cbn [seen trace].
      rewrite count_cons, is_mark_of_same.
      split; [apply SeenStoreFacts.has_seen_mark_same|reflexivity].
    + destruct (format_message env listing b settings) as [message|e] eqn:Hmsg.
      * destruct (notify_and_mark_spec settings listing m i b w message Hmsg)
          as (w1 & Hrun1 & _ & _ & Hcount & Hseen).
        rewrite Hrun1 in Hrun. injection Hrun as <-. split; assumption.
      * unfold notify_and_mark, bind, lift in Hrun. rewrite Hmsg in Hrun. discriminate.
  - intros Hrej.
    rewrite (run_once_listing_filtered settings ri re listing w m i Hm Hi Hset Hunseen Hrej)
      in Hrun.
    injection Hrun as <-. split; [reflexivity|exact Hunseen].
Qed.

End WorkerFacts.

(** *** An unknown strategy *)

Section CycleFacts.

Context (env : Env).

(** The shipping lookup returns on every listing whose shipping cost
    is a number or nothing. *)
Lemma lookup_shipping_cost_total listing settings :
  opt_number (listing !! "shipping_cost") ->
  exists shipping, lookup_shipping_cost env listing settings = Ok shipping.
Proof.
  unfold lookup_shipping_cost, dict_get, getitem, opt_number.
  destruct (listing !! "shipping_cost") as [[| x | s]|]; simpl;
    try contradiction; intros _; eauto;
    destruct (opt_truthy (SHIPPING_TABLE_JSON settings)); eauto;
    destruct (json_loads_object env _); eauto;
    destruct (py_float env _); eauto.
Qed.

Lemma estimate_resale_value_unknown listing settings price :
  let strategy := str_upper (VALUATION_STRATEGY settings) in
  strategy <> "A" -> strategy <> "B" -> strategy <> "C" ->
  listing !! "price" = Some (VFloat price) ->
  estimate_resale_value listing settings
  = Raise (ValueError ("Unknown valuation strategy: " ++ strategy)).
Proof.
  intros strategy HA HB HC Hprice. subst strategy.
  unfold estimate_resale_value, dict_get. rewrite Hprice. cbn [default].
  repeat case_decide; try contradiction. reflexivity.
Qed.

Lemma compute_profit_unknown listing settings price :
  let strategy := str_upper (VALUATION_STRATEGY settings) in
  strategy <> "A" -> strategy <> "B" -> strategy <> "C" ->
  listing !! "price" = Some (VFloat price) ->
  opt_number (listing !! "shipping_cost") ->
  compute_profit env listing settings
  = Raise (ValueError ("Unknown valuation strategy: " ++ strategy)).
Proof.
  intros strategy HA HB HC Hprice Hship.
  destruct (lookup_shipping_cost_total listing settings Hship) as [shipping Hlook].
  unfold compute_profit, dict_get_or. rewrite Hprice. cbn [default py_float res_bind].
  rewrite Hlook. cbn [res_bind].
  rewrite (estimate_resale_value_unknown listing settings price HA HB HC Hprice).
  reflexivity.
Qed.

(** The loop over a list of listings, cut in two: the second part runs
    only if the first ends without an exception. *)
Lemma run_once_listings_app settings ri re pre post w :
  run_once_listings env settings ri re (pre ++ post) w
  = match run_once_listings env settings ri re pre w with
    | (Ok _, w') => run_once_listings env settings ri re post w'
    | (Raise e, w') => (Raise e, w')
    end.
Proof.
  revert w. induction pre as [|listing pre IH]; intros w; [reflexivity|].
  cbn [app run_once_listings]. unfold bind.
  destruct (run_once_listing env settings ri re listing w) as [[[]|e] w1];
    [apply IH|reflexivity].
Qed.

Lemma run_once_fetchers_app settings kw mp ri re fs1 fs2 w :
  run_once_fetchers env settings kw mp ri re (fs1 ++ fs2) w
  = match run_once_fetchers env settings kw mp ri re fs1 w with
    | (Ok _, w') => run_once_fetchers env settings kw mp ri re fs2 w'
    | (Raise e, w') => (Raise e, w')
    end.
Proof.
  revert w. induction fs1 as [|f fs1 IH]; intros w; [reflexivity|].
  cbn [app run_once_fetchers]. unfold bind.
  destruct (try_fetch env f kw mp w) as [[[listings|]|e] w1]; [| apply IH | reflexivity].
  destruct (run_once_listings env settings ri re listings w1) as [[[]|e] w2];
    [apply IH|reflexivity].
Qed.

(** C4.  Under a strategy that does not uppercase to "A", "B" or "C",
    valuating a listing with a price raises [ValueError]; and when a
    cycle arrives at such a listing, the exception leaves [run_once]:
    the cycle ends there with that error, in the world as it stood
    when the listing was reached, whatever listings and fetchers were
    still to come. *)
Theorem unknown_strategy_stops_cycle
    (settings : Settings) (ri re : option string)
    (fs1 fs2 : list Fetcher) (f : Fetcher) (pre post : list Dict) (listing : Dict)
    (w wa wb w1 : World) (m i : string) (price : float) :
  let strategy := str_upper (VALUATION_STRATEGY settings) in
  let keywords := parse_keywords (KEYWORDS settings) in
  strategy <> "A" -> strategy <> "B" -> strategy <> "C" ->
  listing !! "price" = Some (VFloat price) ->
  opt_number (listing !! "shipping_cost") ->
  compile_filter env (REGEX_INCLUDE settings) = Ok ri ->
  compile_filter env (REGEX_EXCLUDE settings) = Ok re ->
  enabled_fetchers settings = (fs1 ++ f :: fs2)%list ->
  run_once_fetchers env settings keywords (MAX_PRICE settings) ri re fs1 w = (Ok tt, wa) ->
  try_fetch env f keywords (MAX_PRICE settings) wa = (Ok (Some (pre ++ listing :: post)%list), wb) ->
  run_once_listings env settings ri re pre wb = (Ok tt, w1) ->
  reaches_valuation env ri re listing w1 m i ->
  compute_profit env listing settings
  = Raise (ValueError ("Unknown valuation strategy: " ++ strategy))
  /\ run_once env settings w
     = (Raise (ValueError ("Unknown valuation strategy: " ++ strategy)), w1).
Proof.
  intros strategy keywords HA HB HC Hprice Hship Hri Hre Hfs Hfs1 Hfetch Hpre Hreach.
  pose proof (compute_profit_unknown listing settings price HA HB HC Hprice Hship) as Hraise.
  split; [exact Hraise|].
  unfold run_once, bind at 1, lift. rewrite Hri. unfold bind at 1. rewrite Hre, Hfs.
  fold keywords.
  rewrite run_once_fetchers_app, Hfs1.
  cbn [run_once_fetchers]. unfold bind at 1. rewrite Hfetch.
  unfold bind at 1. rewrite run_once_listings_app, Hpre.
  cbn [run_once_listings]. unfold bind at 1.
  rewrite (run_once_listing_valuated env settings ri re listing w1 m i Hreach), Hraise.
  reflexivity.
Qed.

End CycleFacts.

(** ** The theorems at work on sample cycles *)

Lemma good_listing_reaches_valuation :
  reaches_valuation silent_env None None good_listing empty_world "ebay" "dry1".
Proof. constructor; try reflexivity. discriminate. Defined.

Lemma cheap_listing_reaches_valuation :
  reaches_valuation silent_env None None cheap_listing empty_world "vinted" "77".
Proof. constructor; try reflexivity. discriminate. Defined.

Lemma notified_once_marked_once_witness :
  exists w',
    run_once_listing silent_env default_settings None None good_listing empty_world = (Ok tt, w')
    /\ count is_send (trace w') = 1
    /\ count is_mark (trace w') = 1
    /\ count (is_mark_of "ebay" "dry1") (trace w') = 1
    /\ SeenStore.has_seen (seen w') "ebay" "dry1" = true.
Proof.
  eapply (notified_once_marked_once silent_env default_settings None None good_listing
            empty_world "ebay" "dry1").
  - exact good_listing_reaches_valuation.
  - reflexivity.
  - reflexivity.
  - vm_compute. reflexivity.
  - vm_compute. reflexivity.
  - vm_compute. reflexivity.
Defined.

(** In that run the send did fail: no transport is configured. *)
Lemma unconfigured_send_fails message w :
  send silent_env default_settings message w
  = (Ok false,
     {| seen := seen w; trace := EvLog LogNoTransport :: EvSend message :: trace w |}).
Proof. reflexivity. Qed.

Lemma below_threshold_marked_not_notified_witness :
  exists w',
    run_once_listing silent_env default_settings None None cheap_listing empty_world = (Ok tt, w')
    /\ trace w' = [EvMarkSeen "vinted" "77"]
    /\ count is_send (trace w') = 0
    /\ count is_post (trace w') = 0
    /\ SeenStore.has_seen (seen w') "vinted" "77" = true.
Proof.
  eapply (below_threshold_marked_not_notified silent_env default_settings None None
            cheap_listing empty_world "vinted" "77").
  - exact cheap_listing_reaches_valuation.
  - vm_compute. reflexivity.
  - left. vm_compute. reflexivity.
Defined.

Lemma marked_seen_when_filters_pass_witness :
  exists w',
    run_once_listing silent_env default_settings None None cheap_listing empty_world = (Ok tt, w')
    /\ SeenStore.has_seen (seen w') "vinted" "77" = true.
Proof.
  eexists. split.
  - vm_compute. reflexivity.
  - refine (proj1 (proj1 (marked_seen_when_filters_pass silent_env default_settings None None
                            cheap_listing empty_world _ "vinted" "77" _ _ _ _ _) _ _ _));
      first [reflexivity | discriminate].
Defined.

(** C2 fails on a listing in condition "poor": it is new to the store,
    its processing ends without an error, and it is not marked seen. *)
Lemma condition_reject_not_marked :
  ~ marks_all_but_duplicates silent_env default_settings None None poor_listing empty_world.
Proof.
  intros Hclaim.
  specialize (Hclaim "ebay" "dry4" empty_world eq_refl eq_refl eq_refl).
  assert (Hrun : run_once_listing silent_env default_settings None None poor_listing empty_world
                 = (Ok tt, empty_world)) by (vm_compute; reflexivity).
  specialize (Hclaim Hrun). vm_compute in Hclaim. discriminate.
Qed.

Lemma unknown_strategy_stops_cycle_witness :
  run_once shop_env odd_settings empty_world
  = (Raise (ValueError "Unknown valuation strategy: MEDIAN"),
     {| seen := []; trace := [EvFetch EbayFetcher] |}).
Proof.
  refine (proj2 (unknown_strategy_stops_cycle shop_env odd_settings None None
                   [] [VintedFetcher] EbayFetcher [poor_listing] [unlisted_listing] good_listing
                   empty_world empty_world {| seen := []; trace := [EvFetch EbayFetcher] |}
                   {| seen := []; trace := [EvFetch EbayFetcher] |}
                   "ebay" "dry1" (F.of_Z 80) _ _ _ _ _ _ _ _ _ _ _ _));
    try reflexivity; try (vm_compute; discriminate).
  constructor; first [reflexivity | discriminate].
Defined.

(** * Further properties of the code *)

(** ** Valuation: errors and edge cases *)

Section ValuationEdges.

Context (env : Env).

(** X1.  [lookup_shipping_cost] raises in one case only: the listing
    declares a shipping cost that is a string and not a number, and the
    error is the [ValueError] of [float].  The fallback table never makes
    it raise, whatever the configured text is. *)
Theorem lookup_shipping_cost_failures (listing : Dict) (settings : Settings) (e : PyExc) :
  lookup_shipping_cost env listing settings = Raise e
  <-> exists s,
        listing !! "shipping_cost" = Some (VStr s)
        /\ float_of_str env s = None
        /\ e = ValueError "could not convert string to float".
Proof.
  unfold lookup_shipping_cost, dict_get, getitem. split.
  - destruct (listing !! "shipping_cost") as [[| x | s]|] eqn:Hship; cbn.
    + destruct (opt_truthy (SHIPPING_TABLE_JSON settings)); [|discriminate].
      destruct (json_loads_object env _); [|discriminate].
      destruct (py_float env _); discriminate.
    + discriminate.
    + destruct (float_of_str env s) eqn:Hparse; cbn; [discriminate|].
      intros [= <-]. exists s. repeat split. exact Hparse.
    + destruct (opt_truthy (SHIPPING_TABLE_JSON settings)); [|discriminate].
      destruct (json_loads_object env _); [|discriminate].
      destruct (py_float env _); discriminate.
  - intros (s & Hship & Hparse & ->). rewrite Hship. cbn. rewrite Hparse. reflexivity.
Qed.

Lemma lookup_shipping_cost_with_strategy listing settings strategy :
  lookup_shipping_cost env listing (with_strategy settings strategy)
  = lookup_shipping_cost env listing settings.
Proof. reflexivity. Qed.

(** X2.  Strategies "A" and "C" are the same valuation: every listing
    gets the same breakdown, or the same exception, under both. *)
Theorem strategies_A_and_C_agree (listing : Dict) (settings : Settings) :
  compute_profit env listing (with_strategy settings "A")
  = compute_profit env listing (with_strategy settings "C").
Proof.
  unfold compute_profit. rewrite !lookup_shipping_cost_with_strategy.
  assert (Hest : estimate_resale_value listing (with_strategy settings "A")
                 = estimate_resale_value listing (with_strategy settings "C")).
  { unfold estimate_resale_value. cbn [VALUATION_STRATEGY with_strategy].
    destruct (dict_get listing "price"); reflexivity. }
  rewrite Hest. reflexivity.
Qed.

(** X3.  No division by zero: when the costs add up to zero, positive
    or negative, the margin is 0.0 and [compute_profit] returns; the
    profit is the rounded resale value minus that total. *)
Theorem zero_total_cost_zero_margin
    (listing : Dict) (settings : Settings) (price resale : float) (shipping : option float) :
  py_float env (dict_get_or listing "price" (VFloat F.zero)) = Ok price ->
  lookup_shipping_cost env listing settings = Ok shipping ->
  estimate_resale_value listing settings = Ok (Some resale) ->
  let cost := F.round2 price in
  let fee := compute_buyer_protection_cost cost settings in
  let total :=
    match shipping with
    | Some s => F.add (F.add cost fee) s
    | None => F.add cost fee
    end in
  F.truthy total = false ->
  exists b,
    compute_profit env listing settings = Ok b
    /\ margin_percent b = F.zero
    /\ profit b = F.round2 (F.round2 (F.sub resale total)).
Proof.
  intros Hprice Hship Hresale cost fee total Hzero. unfold compute_profit.
  rewrite Hprice, Hship, Hresale. cbn [res_bind].
  fold cost. fold fee. fold total. rewrite Hzero.
  eexists. split; [reflexivity|]. split; reflexivity.
Qed.

(** What [estimate_resale_value] does on a listing with a numeric price
    whose brand and model are strings or nothing. *)
Lemma estimate_resale_value_priced listing settings p :
  listing !! "price" = Some (VFloat p) ->
  opt_text (listing !! "brand") ->
  opt_text (listing !! "model") ->
  let strategy := str_upper (VALUATION_STRATEGY settings) in
  (exists r, estimate_resale_value listing settings = Ok r)
  \/ (strategy <> "A" /\ strategy <> "B" /\ strategy <> "C"
      /\ estimate_resale_value listing settings
         = Raise (ValueError ("Unknown valuation strategy: " ++ strategy))).
Proof.
  intros Hprice Hbrand Hmodel strategy. subst strategy.
  destruct (py_lower_opt_text listing "brand" Hbrand) as [b Hb].
  destruct (py_lower_opt_text listing "model" Hmodel) as [m Hm].
  assert (Hget : dict_get listing "price" = VFloat p) by (unfold dict_get; rewrite Hprice; reflexivity).
  unfold estimate_resale_value. rewrite Hget. cbn [py_mul_float res_bind].
  rewrite Hb, Hm.
  repeat case_decide; cbn [res_bind]; eauto 10.
Qed.

(** X4.  On a listing typed as the fetchers build it (price and shipping
    cost a number or nothing, brand and model a string or nothing),
    [compute_profit] fails in exactly two ways: [TypeError] when the price
    is bound to [None], and the [ValueError] of the unknown strategy when
    the price is a number and the strategy is none of A, B, C.  On every
    other such listing it returns a breakdown. *)
Theorem compute_profit_failures (listing : Dict) (settings : Settings) (e : PyExc) :
  opt_number (listing !! "price") ->
  opt_number (listing !! "shipping_cost") ->
  opt_text (listing !! "brand") ->
  opt_text (listing !! "model") ->
  let strategy := str_upper (VALUATION_STRATEGY settings) in
  compute_profit env listing settings = Raise e
  <-> (listing !! "price" = Some VNone /\ e = TypeError)
      \/ (exists p, listing !! "price" = Some (VFloat p)
                    /\ strategy <> "A" /\ strategy <> "B" /\ strategy <> "C"
                    /\ e = ValueError ("Unknown valuation strategy: " ++ strategy)).
Proof.
  intros Hprice Hship Hbrand Hmodel strategy. subst strategy.
  destruct (lookup_shipping_cost_total env listing settings Hship) as [shipping Hlook].
  split.
  - destruct (listing !! "price") as [[| p | s]|] eqn:Hp; cbn in Hprice; try contradiction.
    + rewrite (compute_profit_null_price env listing settings Hp). intros [= <-]. left. eauto.
    + intros Hraise. right. exists p.
      destruct (estimate_resale_value_priced listing settings p Hp Hbrand Hmodel)
        as [[r Hr] | (HA & HB & HC & Hr)].
      * unfold compute_profit, dict_get_or in Hraise. rewrite Hp in Hraise.
        cbn [default py_float res_bind] in Hraise. rewrite Hlook, Hr in Hraise.
        cbn [res_bind] in Hraise. destruct r; discriminate.
      * unfold compute_profit, dict_get_or in Hraise. rewrite Hp in Hraise.
        cbn [default py_float res_bind] in Hraise. rewrite Hlook, Hr in Hraise.
        cbn [res_bind] in Hraise. injection Hraise as <-. repeat split; assumption.
    + destruct (compute_profit_absent_price env listing settings shipping Hp Hlook)
        as (b & Hb & _).
      rewrite Hb. discriminate.
  - intros [[Hp ->] | (p & Hp & HA & HB & HC & ->)].
    + apply compute_profit_null_price. exact Hp.
    + apply (compute_profit_unknown env listing settings p HA HB HC Hp Hship).
Qed.

End ValuationEdges.

(** ** The seen table: invariants *)

Lemma row_key_matches m i r :
  SeenStore.key_matches m i r = true <-> row_key r = (m, i).
Proof.
  rewrite SeenStoreFacts.key_matches_eq. unfold row_key. split.
  - intros [-> ->]. reflexivity.
  - intros [= -> ->]. split; reflexivity.
Qed.

Lemma key_in_deleted k m i table :
  k ∈ List.map row_key
        (List.filter (fun r => negb (SeenStore.key_matches m i r)) table) ->
  k ∈ List.map row_key table /\ k <> (m, i).
Proof.
  induction table as [|r table IH]; simpl; [intros H; inversion H|].
  destruct (SeenStore.key_matches m i r) eqn:Hr; simpl.
  - intros H. destruct (IH H) as [Hin Hne]. split; [right; exact Hin|exact Hne].
  - intros H. apply elem_of_cons in H as [-> | H].
    + split; [left|].
      intros Heq. apply row_key_matches in Heq. congruence.
    + destruct (IH H) as [Hin Hne]. split; [right; exact Hin|exact Hne].
Qed.

Lemma unique_keys_deleted m i table :
  unique_keys table ->
  unique_keys (List.filter (fun r => negb (SeenStore.key_matches m i r)) table).
Proof.
  unfold unique_keys. induction table as [|r table IH]; simpl; [intros; constructor|].
  intros Hnd. apply NoDup_cons in Hnd as [Hnotin Hnd].
  destruct (SeenStore.key_matches m i r); simpl; [apply IH; exact Hnd|].
  apply NoDup_cons. split; [|apply IH; exact Hnd].
  intros Hin. apply key_in_deleted in Hin as [Hin _]. contradiction.
Qed.

Lemma unique_keys_mark_seen table m i seen_at :
  unique_keys table -> unique_keys (SeenStore.mark_seen table m i seen_at).
Proof.
  intros Hnd. unfold unique_keys, SeenStore.mark_seen. rewrite List.map_app.
  apply NoDup_app. split; [apply unique_keys_deleted; exact Hnd|]. split.
  - intros k Hin Hnew. apply key_in_deleted in Hin as [_ Hne].
    simpl in Hnew. apply list_elem_of_singleton in Hnew. contradiction.
  - simpl. apply NoDup_singleton.
Qed.

(** X5.  The primary key holds: [mark_seen] keeps a table free of
    duplicate keys, so every table built from the empty one by
    [mark_seen] calls has at most one row per key. *)
Theorem mark_seen_keeps_keys_unique
    (table : list SeenRow) (calls : list (string * string * string)) :
  unique_keys table ->
  unique_keys (mark_all calls table) /\ unique_keys (mark_all calls SeenStore.empty).
Proof.
  assert (Hall : forall t, unique_keys t -> unique_keys (mark_all calls t)).
  { induction calls as [|c calls IH]; intros t Ht; simpl; [exact Ht|].
    apply IH. apply unique_keys_mark_seen. exact Ht. }
  intros Hnd. split; [apply Hall; exact Hnd|].
  apply Hall. constructor.
Qed.

Lemma mark_seen_keeps_keys_unique_witness :
  unique_keys (mark_all [("ebay", "1", "t1"); ("ebay", "2", "t2"); ("ebay", "1", "t3")]
                 [mkRow "ebay" "1" "t0"]).
Proof.
  apply (mark_seen_keeps_keys_unique [mkRow "ebay" "1" "t0"]).
  repeat constructor. intros H. inversion H.
Defined.

Lemma has_seen_kept_by_mark table m i m' i' seen_at :
  SeenStore.has_seen table m i = true ->
  SeenStore.has_seen (SeenStore.mark_seen table m' i' seen_at) m i = true.
Proof.
  intros Hseen. destruct (decide (m' = m /\ i' = i)) as [[-> ->]|Hne].
  - apply SeenStoreFacts.has_seen_mark_same.
  - rewrite (SeenStoreFacts.has_seen_mark_other _ _ _ _ _ _ Hne). exact Hseen.
Qed.

(** X6.  A record is never lost: a key that [has_seen] reports stays
    reported after any further [mark_seen] calls, for that key or for
    others. *)
Theorem seen_stays_seen
    (table : list SeenRow) (calls : list (string * string * string)) (m i : string) :
  SeenStore.has_seen table m i = true ->
  SeenStore.has_seen (mark_all calls table) m i = true.
Proof.
  revert table. induction calls as [|c calls IH]; intros table Hseen; simpl; [exact Hseen|].
  apply IH. apply has_seen_kept_by_mark. exact Hseen.
Qed.

Lemma seen_stays_seen_witness :
  SeenStore.has_seen
    (mark_all [("vinted", "9", "t1"); ("ebay", "1", "t2")] [mkRow "ebay" "1" "t0"])
    "ebay" "1" = true.
Proof.
  apply (seen_stays_seen [mkRow "ebay" "1" "t0"]). reflexivity.
Defined.

Lemma select_at_most_one table m i :
  unique_keys table ->
  length (SeenStore.select table m i) = if SeenStore.has_seen table m i then 1 else 0.
Proof.
  unfold SeenStore.has_seen, SeenStore.select, unique_keys.
  induction table as [|r table IH]; simpl; [reflexivity|].
  intros Hnd. apply NoDup_cons in Hnd as [Hnotin Hnd]. specialize (IH Hnd).
  destruct (SeenStore.key_matches m i r) eqn:Hr; [|exact IH].
  simpl. f_equal.
  destruct (List.filter (SeenStore.key_matches m i) table) as [|r' rest] eqn:Hsel;
    [reflexivity|].
  exfalso. apply Hnotin.
  assert (Hin : List.In r' (List.filter (SeenStore.key_matches m i) table))
    by (rewrite Hsel; left; reflexivity).
  apply List.filter_In in Hin as [Hin Hr'].
  apply row_key_matches in Hr, Hr'. rewrite Hr, <- Hr'.
  apply list_elem_of_In. apply List.in_map. exact Hin.
Qed.

Lemma filter_split_length {A} (p : A -> bool) (l : list A) :
  length l = length (List.filter p l) + length (List.filter (fun x => negb (p x)) l).
Proof.
  induction l as [|x l IH]; simpl; [reflexivity|].
  destruct (p x); simpl; rewrite IH; [reflexivity|].
  rewrite <- plus_n_Sm. reflexivity.
Qed.

(** X7.  On a table without duplicate keys, [mark_seen] adds one row
    for a key that was not there and keeps the number of rows for a key
    that was: re-marking replaces, it does not grow the table. *)
Theorem mark_seen_row_count (table : list SeenRow) (m i seen_at : string) :
  unique_keys table ->
  length (SeenStore.mark_seen table m i seen_at)
  = if SeenStore.has_seen table m i then length table else S (length table).
Proof.
  intros Hnd. pose proof (select_at_most_one table m i Hnd) as Hsel.
  pose proof (filter_split_length (SeenStore.key_matches m i) table) as Hlen.
  unfold SeenStore.select in Hsel. rewrite Hsel in Hlen.
  unfold SeenStore.mark_seen. rewrite List.length_app. simpl.
  destruct (SeenStore.has_seen table m i); rewrite Hlen; simpl.
  - rewrite <- plus_n_Sm, <- plus_n_O. reflexivity.
  - rewrite <- plus_n_Sm, <- plus_n_O. reflexivity.
Qed.

Lemma mark_seen_row_count_witness :
  length (SeenStore.mark_seen [mkRow "ebay" "1" "t0"; mkRow "ebay" "2" "t0"] "ebay" "1" "t1") = 2
  /\ length (SeenStore.mark_seen [mkRow "ebay" "1" "t0"; mkRow "ebay" "2" "t0"] "ebay" "3" "t1")
     = 3.
Proof.
  assert (Hnd : unique_keys [mkRow "ebay" "1" "t0"; mkRow "ebay" "2" "t0"]).
  { unfold unique_keys. simpl. repeat constructor.
    - intros H. apply list_elem_of_singleton in H. discriminate.
    - intros H. inversion H. }
  split.
  - exact (mark_seen_row_count _ "ebay" "1" "t1" Hnd).
  - exact (mark_seen_row_count _ "ebay" "3" "t1" Hnd).
Defined.

(** ** Notification: what [send] and [format_message] do and never do *)

Section NotifierFacts.

Context (env : Env).

Ltac send_cases :=
  unfold send, send_fallback, _send_cloud, _send_twilio, bind, emit, moment, ret;
  cbn [seen trace];
  repeat match goal with
         | |- context [if ?c then _ else _] => destruct c eqn:?; cbn [seen trace]
         end.

(** X8.  [send] delivers at most once and its flag tells the truth: it
    returns without raising, the number of requests a transport accepted
    during the call is one when it returns [True] and none when it
    returns [False], it makes at most two requests, and it leaves the
    store alone. *)
Theorem send_delivers_at_most_once (settings : Settings) (message : string) (w : World) :
  exists sent w',
    send env settings message w = (Ok sent, w')
    /\ seen w' = seen w
    /\ count is_ok_post (trace w')
       = (if sent then 1 else 0) + count is_ok_post (trace w)
    /\ count is_post (trace w') <= 2 + count is_post (trace w).
Proof.
  send_cases;
    do 2 eexists; (split; [reflexivity|]); cbn [seen trace];
    rewrite ?count_cons; cbn [is_ok_post is_post];
    repeat split; lia.
Qed.

(** X9.  Twilio is the fallback only: during one call of [send], a
    request to Twilio and an accepted request to the Cloud API never both
    occur. *)
Theorem twilio_only_after_cloud_refusal (settings : Settings) (message : string) (w : World) :
  let w' := (send env settings message w).2 in
  count is_cloud_ok (trace w') + count is_twilio_post (trace w')
  <= 1 + (count is_cloud_ok (trace w) + count is_twilio_post (trace w)).
Proof.
  send_cases; cbn [snd seen trace]; rewrite ?count_cons;
    cbn [is_cloud_ok is_twilio_post]; lia.
Qed.

(** X10.  Without a configured transport (the Cloud API needs its phone
    id and token, Twilio its account, token and sender), [send] makes no
    request at all: it logs the missing transport and returns [False]. *)
Theorem unconfigured_send_makes_no_request
    (settings : Settings) (message : string) (w : World) :
  opt_truthy (WA_PHONE_ID settings) && opt_truthy (WA_TOKEN settings) = false ->
  opt_truthy (TWILIO_ACCOUNT_SID settings) && opt_truthy (TWILIO_AUTH_TOKEN settings)
    && opt_truthy (TWILIO_WHATSAPP_FROM settings) = false ->
  send env settings message w
  = (Ok false,
     {| seen := seen w; trace := EvLog LogNoTransport :: EvSend message :: trace w |}).
Proof.
  intros Hcloud Htwilio. unfold send, send_fallback, bind, emit, ret.
  rewrite Hcloud, Htwilio. reflexivity.
Qed.

(** X11.  [format_message] needs the keys [title] and [url] and nothing
    else: it raises exactly when one of them is absent, with the
    [KeyError] of the first that is missing, whatever the values, the
    breakdown and the settings are. *)
Theorem format_message_key_errors
    (listing : Dict) (b : Breakdown) (settings : Settings) (e : PyExc) :
  format_message env listing b settings = Raise e
  <-> (listing !! "title" = None /\ e = KeyError "title")
      \/ (listing !! "title" <> None /\ listing !! "url" = None /\ e = KeyError "url").
Proof.
  unfold format_message, getitem.
  destruct (listing !! "title") as [title|]; cbn [res_bind];
    [destruct (listing !! "url") as [url|]; cbn [res_bind]|]; split.
  - discriminate.
  - intros [[? _] | (_ & ? & _)]; discriminate.
  - intros [= <-]. right. repeat split. discriminate.
  - intros [[? _] | (_ & _ & ->)]; [discriminate|reflexivity].
  - intros [= <-]. left. split; reflexivity.
  - intros [[_ ->] | (H & _)]; [reflexivity|contradiction].
Qed.

Lemma str_app_assoc (a b c : string) : (a ++ b) ++ c = a ++ (b ++ c).
Proof.
  induction a as [|x a IH]; [reflexivity|].
  change (String x ((a ++ b) ++ c) = String x (a ++ (b ++ c))). rewrite IH. reflexivity.
Qed.

(** Two floats that are numbers always compare. *)
Lemma SFcompare_numbers a b :
  a <> S754_nan -> b <> S754_nan -> exists c, SFcompare a b = Some c.
Proof.
  intros Ha Hb. destruct a, b; try contradiction; simpl; eauto.
Qed.

Lemma not_ltb_leb a b :
  a <> S754_nan -> b <> S754_nan -> F.ltb a b = false -> F.leb b a = true.
Proof.
  intros Ha Hb. unfold F.ltb, F.leb, SFltb, SFleb.
  rewrite (SFcompare_antisym a b).
  destruct (SFcompare_numbers a b Ha Hb) as [c ->]. destruct c; simpl; congruence.
Qed.

(** X12.  A notification the cycle sends says "Looks good!": when a
    breakdown is not below the thresholds and neither its profit nor
    [PROFIT_MIN] is NaN, the message ends with the favourable line. *)
Theorem notification_says_looks_good
    (listing : Dict) (b : Breakdown) (settings : Settings) (title url : PyVal) :
  listing !! "title" = Some title ->
  listing !! "url" = Some url ->
  below_thresholds settings b = false ->
  profit b <> S754_nan ->
  PROFIT_MIN settings <> S754_nan ->
  exists body,
    format_message env listing b settings = Ok (body ++ "\ud83d\udd35 Looks good!").
Proof.
  intros Htitle Hurl Hpass Hprofit Hmin.
  unfold below_thresholds in Hpass. apply orb_false_iff in Hpass as [Hlt _].
  pose proof (not_ltb_leb _ _ Hprofit Hmin Hlt) as Hleb.
  unfold format_message, getitem. rewrite Htitle, Hurl. cbn [res_bind]. rewrite Hleb.
  eexists. f_equal. repeat rewrite <- str_app_assoc. reflexivity.
Qed.

End NotifierFacts.

Lemma unconfigured_send_makes_no_request_witness :
  send silent_env default_settings "hello" empty_world
  = (Ok false, {| seen := []; trace := [EvLog LogNoTransport; EvSend "hello"] |}).
Proof.
  apply (unconfigured_send_makes_no_request silent_env default_settings "hello" empty_world);
    reflexivity.
Defined.

Lemma format_message_key_errors_witness :
  format_message silent_env test_listing
    {| product_cost := F.zero; buyer_protection_cost := F.zero; shipping_cost := F.zero;
       total_cost := F.zero; potential_resale_value := F.zero; profit := F.zero;
       margin_percent := F.zero |} default_settings
  = Raise (KeyError "title").
Proof.
  apply (format_message_key_errors silent_env test_listing). left. split; reflexivity.
Defined.

Lemma notification_says_looks_good_witness :
  exists body,
    format_message silent_env good_listing good_breakdown default_settings
    = Ok (body ++ "\ud83d\udd35 Looks good!").
Proof.
  apply (notification_says_looks_good silent_env good_listing good_breakdown default_settings
           (VStr "Cobra King LTDx driver") (VStr "https://example.com/item"));
    try reflexivity; vm_compute; discriminate.
Defined.

(** ** The polling cycle: keywords and conditions *)

Lemma chars_rev_app s1 s2 :
  chars (String.rev_app s1 s2) = (reverse (chars s1) ++ chars s2)%list.
Proof.
  revert s2. induction s1 as [|a s1 IH]; intros s2; [reflexivity|].
  simpl. rewrite IH. unfold chars at 3. simpl. fold (chars s1).
  rewrite reverse_cons, <- List.app_assoc. reflexivity.
Qed.

Lemma chars_rev s : chars (String.rev s) = reverse (chars s).
Proof. unfold String.rev. rewrite chars_rev_app. apply List.app_nil_r. Qed.

Lemma lstrip_head s c : head (chars (str_lstrip s)) = Some c -> is_space c = false.
Proof.
  induction s as [|a s IH]; simpl; [discriminate|].
  destruct (is_space a) eqn:Ha; [exact IH|]. simpl. intros [= <-]. exact Ha.
Qed.

Lemma lstrip_suffix s : exists pre, chars s = (pre ++ chars (str_lstrip s))%list.
Proof.
  induction s as [|a s [pre IH]]; simpl; [exists []; reflexivity|].
  destruct (is_space a); [|exists []; reflexivity].
  exists (a :: pre). unfold chars at 1. simpl. fold (chars s). rewrite IH. reflexivity.
Qed.

Lemma lstrip_last s c : last (chars (str_lstrip s)) = Some c -> last (chars s) = Some c.
Proof.
  intros Hlast. destruct (lstrip_suffix s) as [pre ->]. rewrite last_app, Hlast. reflexivity.
Qed.

Lemma lstrip_elem s c : c ∈ chars (str_lstrip s) -> c ∈ chars s.
Proof.
  intros Hin. destruct (lstrip_suffix s) as [pre ->]. apply elem_of_app. right. exact Hin.
Qed.

Lemma chars_strip s :
  chars (str_strip s) = reverse (chars (str_lstrip (String.rev (str_lstrip s)))).
Proof. unfold str_strip. apply chars_rev. Qed.

Lemma strip_elem s c : c ∈ chars (str_strip s) -> c ∈ chars s.
Proof.
  rewrite chars_strip, elem_of_reverse. intros Hin.
  apply lstrip_elem in Hin. rewrite chars_rev, elem_of_reverse in Hin.
  apply lstrip_elem in Hin. exact Hin.
Qed.

Lemma split_pieces sep s y :
  y ∈ str_split sep s -> (sep ∉ chars y) /\ (forall c, c ∈ chars y -> c ∈ chars s).
Proof.
  revert y. induction s as [|a s IH]; intros y; simpl.
  - intros Hy. apply list_elem_of_singleton in Hy as ->. split.
    + intros H. inversion H.
    + intros c H. inversion H.
  - destruct (Ascii.eqb_spec a sep) as [->|Hne].
    + intros Hy. apply elem_of_cons in Hy as [-> | Hy].
      * split; [intros H; inversion H|intros c H; inversion H].
      * destruct (IH y Hy) as [Hsep Hsub]. split; [exact Hsep|].
        intros c Hc. right. apply Hsub. exact Hc.
    + destruct (str_split sep s) as [|h t] eqn:Hsplit.
      * intros Hy. apply list_elem_of_singleton in Hy as ->. split.
        -- intros H. apply list_elem_of_singleton in H. congruence.
        -- intros c H. apply list_elem_of_singleton in H as ->. left.
      * intros Hy. apply elem_of_cons in Hy as [-> | Hy].
        -- destruct (IH h) as [Hsep Hsub]; [left|]. split.
           ++ intros H. apply elem_of_cons in H as [H | H]; [congruence|contradiction].
           ++ intros c H. apply elem_of_cons in H as [-> | H]; [left|right; apply Hsub; exact H].
        -- destruct (IH y) as [Hsep Hsub]; [right; exact Hy|]. split; [exact Hsep|].
           intros c Hc. right. apply Hsub. exact Hc.
Qed.

Lemma parse_keywords_elem keyword_str kw :
  In kw (parse_keywords keyword_str) ->
  exists piece, kw = str_strip piece /\ piece ∈ str_split "," keyword_str /\ kw <> "".
Proof.
  unfold parse_keywords. intros Hin.
  apply List.in_map_iff in Hin as (piece & <- & Hin).
  apply List.filter_In in Hin as [Hin Hne].
  exists piece. split; [reflexivity|]. split; [apply list_elem_of_In; exact Hin|].
  intros Heq. rewrite Heq in Hne. discriminate.
Qed.

(** X13.  The keywords handed to the fetchers are clean: none is empty,
    none holds a comma, and none starts or ends with white space. *)
Theorem parse_keywords_clean (keyword_str kw : string) :
  In kw (parse_keywords keyword_str) ->
  kw <> ""
  /\ ~ In ","%char (chars kw)
  /\ (forall c, head (chars kw) = Some c -> is_space c = false)
  /\ (forall c, last (chars kw) = Some c -> is_space c = false).
Proof.
  intros Hin. apply parse_keywords_elem in Hin as (piece & -> & Hpiece & Hne).
  destruct (split_pieces _ _ _ Hpiece) as [Hsep _].
  split; [exact Hne|]. split; [|split].
  - intros Hcomma. apply Hsep. apply strip_elem. apply list_elem_of_In. exact Hcomma.
  - intros c. rewrite chars_strip, head_reverse. intros Hlast.
    apply lstrip_last in Hlast. rewrite chars_rev, last_reverse in Hlast.
    exact (lstrip_head _ _ Hlast).
  - intros c. rewrite chars_strip, last_reverse. apply lstrip_head.
Qed.

Lemma parse_keywords_clean_witness :
  parse_keywords " driver , ,Scotty Cameron," = ["driver"; "Scotty Cameron"]
  /\ "Scotty Cameron" <> "" /\ ~ In ","%char (chars "Scotty Cameron").
Proof.
  split; [reflexivity|].
  destruct (parse_keywords_clean " driver , ,Scotty Cameron," "Scotty Cameron")
    as (H1 & H2 & _).
  - right. left. reflexivity.
  - split; assumption.
Defined.

Lemma lstrip_blank s : (forall c, c ∈ chars s -> is_space c = true) -> str_lstrip s = "".
Proof.
  induction s as [|a s IH]; intros Hall; [reflexivity|].
  simpl. rewrite (Hall a) by left. apply IH. intros c Hc. apply Hall. right. exact Hc.
Qed.

(** X14.  A keyword setting that holds only commas and white space, the
    empty one included, yields no keyword at all. *)
Theorem parse_keywords_blank (keyword_str : string) :
  (forall c, c ∈ chars keyword_str -> c = ","%char \/ is_space c = true) ->
  parse_keywords keyword_str = [].
Proof.
  intros Hblank. unfold parse_keywords.
  assert (Hnone : forall pieces,
             (forall y, y ∈ pieces -> str_strip y = "") ->
             List.filter (fun kw => negb (String.eqb (str_strip kw) "")) pieces = []).
  { induction pieces as [|y pieces IH]; intros Hall; [reflexivity|].
    simpl. rewrite (Hall y) by left. simpl. apply IH. intros z Hz. apply Hall. right. exact Hz. }
  rewrite Hnone; [reflexivity|].
  intros y Hy. destruct (split_pieces _ _ _ Hy) as [Hsep Hsub].
  unfold str_strip. rewrite (lstrip_blank y); [reflexivity|].
  intros c Hc. destruct (Hblank c (Hsub c Hc)) as [-> | Hspace]; [contradiction|exact Hspace].
Qed.

Lemma parse_keywords_blank_witness : parse_keywords " , ,, " = [].
Proof.
  apply parse_keywords_blank. intros c Hc.
  repeat (apply elem_of_cons in Hc as [-> | Hc]; [first [left; reflexivity | right; reflexivity]|]).
  inversion Hc.
Defined.

Lemma ascii_lower_upper c : ascii_lower (ascii_upper c) = ascii_lower c.
Proof. destruct c as [[] [] [] [] [] [] [] []]; reflexivity. Qed.

Lemma ascii_lower_lower c : ascii_lower (ascii_lower c) = ascii_lower c.
Proof. destruct c as [[] [] [] [] [] [] [] []]; reflexivity. Qed.

Lemma str_map_map f g s : str_map f (str_map g s) = str_map (fun c => f (g c)) s.
Proof. induction s as [|a s IH]; simpl; [reflexivity|]. rewrite IH. reflexivity. Qed.

Lemma str_map_ext f g s : (forall c, f c = g c) -> str_map f s = str_map g s.
Proof. intros Hfg. induction s as [|a s IH]; simpl; [reflexivity|]. rewrite Hfg, IH. reflexivity. Qed.

Lemma str_map_empty f s : String.eqb (str_map f s) "" = String.eqb s "".
Proof. destruct s; reflexivity. Qed.

(** X15.  The condition check ignores the case of ASCII text: a
    condition written in ASCII is accepted or rejected alike in upper
    case, in lower case and as written. *)
Theorem condition_acceptable_ignores_case (s : string) :
  str_isascii s = true ->
  condition_acceptable (VStr (str_upper s)) = condition_acceptable (VStr s)
  /\ condition_acceptable (VStr (str_lower s)) = condition_acceptable (VStr s).
Proof.
  intros _. unfold condition_acceptable, truthy, py_lower, str_upper, str_lower.
  rewrite !str_map_empty. split.
  - rewrite str_map_map, (str_map_ext _ ascii_lower s ascii_lower_upper). reflexivity.
  - rewrite str_map_map, (str_map_ext _ ascii_lower s ascii_lower_lower). reflexivity.
Qed.

Lemma condition_acceptable_ignores_case_witness :
  condition_acceptable (VStr (str_upper "Like New")) = condition_acceptable (VStr "Like New")
  /\ condition_acceptable (VStr (str_lower "Like New")) = condition_acceptable (VStr "Like New").
Proof.
  apply (condition_acceptable_ignores_case "Like New"). reflexivity.
Defined.

(** ** The polling cycle: what every computation keeps *)

Section Preservation.

Context (env : Env) (R : World -> World -> Prop) (HR : cycle_relation R).

Lemma preserves_ret {A} (a : A) : preserves R (ret a).
Proof. intros w. apply (cr_refl R HR). Qed.

Lemma preserves_lift {A} (r : Res A) : preserves R (lift r).
Proof. intros w. apply (cr_refl R HR). Qed.

Lemma preserves_moment : preserves R moment.
Proof. intros w. apply (cr_refl R HR). Qed.

Lemma preserves_emit e : is_mark e = false -> preserves R (emit e).
Proof. intros He w. apply (cr_emit R HR). exact He. Qed.

Lemma preserves_bind {A B} (m : M A) (k : A -> M B) :
  preserves R m -> (forall a, preserves R (k a)) -> preserves R (bind m k).
Proof.
  intros Hm Hk w. unfold bind. specialize (Hm w).
  destruct (m w) as [[a|e] w1]; simpl in Hm; [|exact Hm].
  apply (cr_trans R HR _ w1); [exact Hm|apply Hk].
Qed.

Lemma preserves_has_seen marketplace listing_id :
  preserves R (seen_store_has_seen env marketplace listing_id).
Proof.
  intros w. unfold seen_store_has_seen.
  destruct (sql_text env marketplace), (sql_text env listing_id); apply (cr_refl R HR).
Qed.

Lemma preserves_mark_seen marketplace listing_id :
  preserves R (seen_store_mark_seen env marketplace listing_id).
Proof.
  intros w. unfold seen_store_mark_seen.
  destruct (sql_text env marketplace), (sql_text env listing_id);
    first [apply (cr_mark R HR) | apply (cr_refl R HR)].
Qed.

Ltac preserve :=
  repeat first
    [ apply preserves_ret
    | apply preserves_lift
    | apply preserves_moment
    | apply preserves_emit; reflexivity
    | apply preserves_has_seen
    | apply preserves_mark_seen
    | apply preserves_bind; [|intros ?]
    | match goal with
      | |- preserves _ (if ?b then _ else _) => destruct b
      end ].

Lemma preserves_listing settings ri re listing :
  preserves R (run_once_listing env settings ri re listing).
Proof.
  unfold run_once_listing, notify_and_mark, send, send_fallback, _send_cloud, _send_twilio.
  cbv zeta. preserve.
Qed.

Lemma preserves_listings settings ri re listings :
  preserves R (run_once_listings env settings ri re listings).
Proof.
  induction listings as [|listing rest IH]; simpl; [apply preserves_ret|].
  apply preserves_bind; [apply preserves_listing|intros _; exact IH].
Qed.

Lemma preserves_try_fetch f keywords max_price :
  preserves R (try_fetch env f keywords max_price).
Proof.
  assert (Hfetch : preserves R (fetch_listings env f keywords max_price))
    by (unfold fetch_listings; preserve).
  intros w. unfold try_fetch. specialize (Hfetch w).
  destruct (fetch_listings env f keywords max_price w) as [[listings|e] w1];
    simpl in Hfetch; [exact Hfetch|].
  apply (cr_trans R HR _ w1); [exact Hfetch|].
  apply (cr_emit R HR). reflexivity.
Qed.

Lemma preserves_fetchers settings keywords max_price ri re fetchers :
  preserves R (run_once_fetchers env settings keywords max_price ri re fetchers).
Proof.
  induction fetchers as [|f rest IH]; simpl; [apply preserves_ret|].
  apply preserves_bind; [apply preserves_try_fetch|].
  intros [listings|]; [|exact IH].
  apply preserves_bind; [apply preserves_listings|intros _; exact IH].
Qed.

Lemma preserves_run_once settings : preserves R (run_once env settings).
Proof.
  unfold run_once. cbv zeta. preserve. apply preserves_fetchers.
Qed.

End Preservation.

Lemma existsb_app_orb {A} (p : A -> bool) (l1 l2 : list A) :
  existsb p (l1 ++ l2) = existsb p l1 || existsb p l2.
Proof. apply List.existsb_app. Qed.

Lemma store_follows_marks_relation : cycle_relation store_follows_marks.
Proof.
  split.
  - intros w. exists []. split; [reflexivity|]. intros m i. simpl. rewrite orb_false_r. reflexivity.
  - intros a b c (e1 & Ht1 & Hs1) (e2 & Ht2 & Hs2). exists (e2 ++ e1)%list. split.
    + rewrite Ht2, Ht1. apply List.app_assoc.
    + intros m i. rewrite Hs2, Hs1, existsb_app_orb.
      destruct (SeenStore.has_seen (seen a) m i), (existsb (is_mark_of m i) e1),
        (existsb (is_mark_of m i) e2); reflexivity.
  - intros w e He. exists [e]. split; [reflexivity|]. intros m i. simpl.
    destruct e; try discriminate; simpl; rewrite orb_false_r; reflexivity.
  - intros w m i ts. exists [EvMarkSeen m i]. split; [reflexivity|].
    intros m' i'. cbn [seen existsb is_mark_of]. rewrite orb_false_r.
    destruct (String.eqb_spec m m') as [->|Hm]; [destruct (String.eqb_spec i i') as [->|Hi]|];
      cbn [andb].
    + rewrite SeenStoreFacts.has_seen_mark_same, orb_true_r. reflexivity.
    + rewrite orb_false_r. apply SeenStoreFacts.has_seen_mark_other. intros [_ ?]. contradiction.
    + rewrite orb_false_r. apply SeenStoreFacts.has_seen_mark_other. intros [? _]. contradiction.
Qed.

Lemma keys_stay_unique_relation : cycle_relation keys_stay_unique.
Proof.
  split; unfold keys_stay_unique.
  - intros w H. exact H.
  - intros a b c Hab Hbc H. apply Hbc, Hab, H.
  - intros w e _ H. exact H.
  - intros w m i ts H. apply unique_keys_mark_seen. exact H.
Qed.

(** X16.  The store changes by [mark_seen] only, and nothing is ever
    taken back: across a whole cycle, whether it ends normally or with an
    exception, the old events are kept below the new ones, and a key is
    seen afterwards exactly when it was seen before or the cycle issued
    its [mark_seen]. *)
Theorem cycle_store_follows_marks (env : Env) (settings : Settings) (w : World) :
  store_follows_marks w (run_once env settings w).2.
Proof. apply (preserves_run_once env _ store_follows_marks_relation). Qed.

(** X17.  The primary key survives a cycle: if no two rows of the store
    share a key when [run_once] starts, none do when it ends, normally or
    with an exception. *)
Theorem cycle_keeps_keys_unique (env : Env) (settings : Settings) (w : World) :
  unique_keys (seen w) -> unique_keys (seen (run_once env settings w).2).
Proof. apply (preserves_run_once env _ keys_stay_unique_relation). Qed.

Lemma cycle_keeps_keys_unique_witness :
  unique_keys (seen (run_once shop_env default_settings empty_world).2).
Proof.
  apply (cycle_keeps_keys_unique shop_env default_settings empty_world). constructor.
Defined.

(** ** The polling cycle: listings and fetchers *)

Section CycleEdges.

Context (env : Env).

(** X18.  A listing whose identifier is [None] or empty is skipped
    without a trace; a listing without the key [marketplace], or with it
    but without the key [listing_id], raises [KeyError] for that key (and
    so ends the cycle), the world being left as it was. *)
Theorem unidentified_listing
    (settings : Settings) (ri re : option string) (listing : Dict) (w : World) :
  (forall marketplace listing_id,
      listing !! "marketplace" = Some marketplace ->
      listing !! "listing_id" = Some listing_id ->
      truthy listing_id = false ->
      run_once_listing env settings ri re listing w = (Ok tt, w))
  /\ (listing !! "marketplace" = None ->
      run_once_listing env settings ri re listing w = (Raise (KeyError "marketplace"), w))
  /\ (listing !! "marketplace" <> None ->
      listing !! "listing_id" = None ->
      run_once_listing env settings ri re listing w = (Raise (KeyError "listing_id"), w)).
Proof.
  unfold run_once_listing, bind, lift, getitem. repeat split.
  - intros marketplace listing_id Hm Hi Hfalsy. rewrite Hm, Hi, Hfalsy. reflexivity.
  - intros Hm. rewrite Hm. reflexivity.
  - intros Hm Hi. destruct (listing !! "marketplace"); [|contradiction].
    rewrite Hi. reflexivity.
Qed.

(** A listing that went through the valuation without an exception is
    in the store. *)
Lemma valuated_ok_is_seen settings ri re listing w w1 m i :
  reaches_valuation env ri re listing w m i ->
  run_once_listing env settings ri re listing w = (Ok tt, w1) ->
  SeenStore.has_seen (seen w1) m i = true.
Proof.
  intros Hreach Hrun.
  rewrite (run_once_listing_valuated env settings ri re listing w m i Hreach) in Hrun.
  destruct (compute_profit env listing settings) as [b|e]; [|discriminate].
  destruct (below_thresholds settings b).
  - rewrite mark_seen_step in Hrun. injection Hrun as <-.
    apply SeenStoreFacts.has_seen_mark_same.
  - destruct (format_message env listing b settings) as [message|e] eqn:Hmsg.
    + destruct (notify_and_mark_spec env settings listing m i b w message Hmsg)
        as (w' & Hrun' & _ & _ & _ & Hseen).
      rewrite Hrun' in Hrun. injection Hrun as <-. exact Hseen.
    + unfold notify_and_mark, bind, lift in Hrun. rewrite Hmsg in Hrun. discriminate.
Qed.

Lemma open_close_store settings settings' h w :
  SQLITE_DB settings' = SQLITE_DB settings ->
  open_store settings' (close_store settings h w) = w.
Proof.
  intros Hdb. unfold open_store, close_store. cbn [files events].
  rewrite Hdb, lookup_insert_eq. destruct w; reflexivity.
Qed.

Lemma open_other_store settings settings' h w :
  SQLITE_DB settings' <> SQLITE_DB settings ->
  seen (open_store settings' (close_store settings h w)) = seen (open_store settings' h).
Proof.
  intros Hdb. unfold open_store, close_store. cbn [files events seen].
  rewrite lookup_insert_ne by congruence. reflexivity.
Qed.

Lemma open_store_same_file settings settings' h :
  SQLITE_DB settings' = SQLITE_DB settings ->
  open_store settings' h = open_store settings h.
Proof. intros Hdb. unfold open_store. rewrite Hdb. reflexivity. Qed.

(** A cycle, under whatever settings, leaves what is seen in a file seen. *)
Lemma run_cycle_keeps_seen settings settings' h m i :
  SeenStore.has_seen (seen (open_store settings h)) m i = true ->
  SeenStore.has_seen (seen (open_store settings (run_cycle env settings' h).2)) m i = true.
Proof.
  intros Hseen. unfold run_cycle. cbn [snd].
  destruct (decide (SQLITE_DB settings = SQLITE_DB settings')) as [Hdb | Hdb].
  - rewrite (open_close_store settings' settings h _ Hdb).
    destruct (preserves_run_once env _ store_follows_marks_relation settings'
                (open_store settings' h)) as (evs & _ & Hfollow).
    rewrite Hfollow, <- (open_store_same_file settings' settings h Hdb), Hseen. reflexivity.
  - rewrite (open_other_store settings' settings h _ Hdb). exact Hseen.
Qed.

Lemma run_cycles_keep_seen settings cycles h m i :
  SeenStore.has_seen (seen (open_store settings h)) m i = true ->
  SeenStore.has_seen (seen (open_store settings (run_cycles env cycles h))) m i = true.
Proof.
  revert h. induction cycles as [|settings' cycles IH]; intros h Hseen; [exact Hseen|].
  apply IH. apply run_cycle_keeps_seen. exact Hseen.
Qed.

(** X19.  At most once, per database file: after a listing has gone
    through the valuation without an exception, processing it again is a
    no-op (no valuation, no message, no write) at any later point of the
    cycle, and in every cycle under settings that name the same database
    file, whatever its thresholds and filters are and whatever cycles
    ran in between. *)
Theorem processed_listing_never_again
    (settings : Settings) (ri re : option string) (listing : Dict) (h : Host) (w1 : World)
    (m i : string) :
  names_file (SQLITE_DB settings) = true ->
  reaches_valuation env ri re listing (open_store settings h) m i ->
  run_once_listing env settings ri re listing (open_store settings h) = (Ok tt, w1) ->
  (forall later,
      let w2 := (run_once_listings env settings ri re later w1).2 in
      run_once_listing env settings ri re listing w2 = (Ok tt, w2))
  /\ (forall later cycles settings' ri' re',
        SQLITE_DB settings' = SQLITE_DB settings ->
        let w2 := (run_once_listings env settings ri re later w1).2 in
        let w3 := open_store settings' (run_cycles env cycles (close_store settings h w2)) in
        run_once_listing env settings' ri' re' listing w3 = (Ok tt, w3)).
Proof.
  intros _ Hreach Hrun.
  pose proof (valuated_ok_is_seen settings ri re listing _ w1 m i Hreach Hrun) as Hseen.
  destruct Hreach as [Hm Hi Hset _ _ _ _].
  assert (Hlater : forall later,
             SeenStore.has_seen (seen (run_once_listings env settings ri re later w1).2) m i
             = true).
  { intros later.
    destruct (preserves_listings env _ store_follows_marks_relation settings ri re later w1)
      as (evs & _ & Hfollow).
    rewrite Hfollow, Hseen. reflexivity. }
  split.
  - intros later w2.
    apply (run_once_listing_seen env settings ri re listing w2 m i Hm Hi Hset).
    subst w2. apply Hlater.
  - intros later cycles settings' ri' re' Hdb w2 w3.
    apply (run_once_listing_seen env settings' ri' re' listing w3 m i Hm Hi Hset).
    subst w3. rewrite (open_store_same_file settings settings' _ Hdb).
    apply run_cycles_keep_seen.
    rewrite (open_close_store settings settings h w2 eq_refl). subst w2. apply Hlater.
Qed.

(** X20.  A filter pattern that does not compile ends the cycle before
    anything else happens: [run_once] raises the error of [re.compile]
    and no fetcher is asked, nothing is sent, nothing is stored. *)
Theorem invalid_regex_stops_before_fetch (settings : Settings) (ri : option string) (w : World) :
  (opt_truthy (REGEX_INCLUDE settings) = true
   /\ re_valid env (default "" (REGEX_INCLUDE settings)) = false)
  \/ (compile_filter env (REGEX_INCLUDE settings) = Ok ri
      /\ opt_truthy (REGEX_EXCLUDE settings) = true
      /\ re_valid env (default "" (REGEX_EXCLUDE settings)) = false) ->
  run_once env settings w = (Raise (OtherError "re.error"), w).
Proof.
  unfold run_once, bind, lift.
  intros [[Hset Hbad] | (Hinc & Hset & Hbad)].
  - unfold compile_filter. rewrite Hset, Hbad. reflexivity.
  - rewrite Hinc. unfold compile_filter. rewrite Hset, Hbad. reflexivity.
Qed.

(** X21.  A fetcher that raises costs its own listings only: with both
    marketplaces on, when the eBay fetcher raises the error is logged and
    the cycle goes on exactly as a Vinted-only pass. *)
Theorem fetcher_failure_isolated
    (settings : Settings) (ri re : option string) (w : World) (e : PyExc) :
  ENABLE_EBAY settings = true ->
  ENABLE_VINTED settings = true ->
  compile_filter env (REGEX_INCLUDE settings) = Ok ri ->
  compile_filter env (REGEX_EXCLUDE settings) = Ok re ->
  ebay_fetch_listings env (length (trace w)) (parse_keywords (KEYWORDS settings))
    (MAX_PRICE settings) = Raise e ->
  run_once env settings w
  = run_once_fetchers env settings (parse_keywords (KEYWORDS settings)) (MAX_PRICE settings)
      ri re [VintedFetcher]
      {| seen := seen w;
         trace := EvLog (LogFetcherError e) :: EvFetch EbayFetcher :: trace w |}.
Proof.
  intros Hebay Hvinted Hri Hre Hfetch.
  unfold run_once, bind at 1, lift. rewrite Hri. unfold bind at 1. rewrite Hre.
  unfold enabled_fetchers. rewrite Hebay, Hvinted.
  cbn [app run_once_fetchers]. unfold bind at 1.
  unfold try_fetch at 1, fetch_listings, bind, moment, emit, lift, ret. cbn [seen trace].
  rewrite Hfetch. reflexivity.
Qed.

Lemma compute_profit_infinite_price listing settings :
  listing !! "price" = Some (VFloat (S754_infinity false)) ->
  opt_number (listing !! "shipping_cost") ->
  str_upper (VALUATION_STRATEGY settings) = "A"
  \/ str_upper (VALUATION_STRATEGY settings) = "C" ->
  exists b,
    compute_profit env listing settings = Ok b
    /\ profit b = S754_nan /\ margin_percent b = S754_nan.
Proof.
  intros Hp Hship Hs.
  destruct (lookup_shipping_cost_total env listing settings Hship) as [shipping Hlook].
  assert (Hest : estimate_resale_value listing settings = Ok (Some (S754_infinity false))).
  { unfold estimate_resale_value, dict_get. rewrite Hp. cbn [default].
    destruct Hs as [-> | ->]; reflexivity. }
  unfold compute_profit, dict_get_or. rewrite Hp. cbn [default py_float res_bind].
  rewrite Hlook, Hest. cbn [res_bind].
  eexists. split; [reflexivity|]. cbn [profit margin_percent].
  destruct shipping as [[s|s| |s sm se]|]; try destruct s; split; vm_compute; reflexivity.
Qed.

(** X22.  A price of infinity is not suppressed: under strategy A or C
    the profit and the margin of such a listing are NaN, no comparison
    with a threshold holds, and the listing is notified (one [send]) and
    marked seen. *)
Theorem infinite_price_is_notified
    (settings : Settings) (ri re : option string) (listing : Dict) (w : World)
    (m i : string) (title url : PyVal) :
  reaches_valuation env ri re listing w m i ->
  listing !! "title" = Some title ->
  listing !! "url" = Some url ->
  listing !! "price" = Some (VFloat (S754_infinity false)) ->
  opt_number (listing !! "shipping_cost") ->
  str_upper (VALUATION_STRATEGY settings) = "A"
  \/ str_upper (VALUATION_STRATEGY settings) = "C" ->
  exists w',
    run_once_listing env settings ri re listing w = (Ok tt, w')
    /\ count is_send (trace w') = S (count is_send (trace w))
    /\ SeenStore.has_seen (seen w') m i = true.
Proof.
  intros Hreach Htitle Hurl Hp Hship Hs.
  destruct (compute_profit_infinite_price listing settings Hp Hship Hs)
    as (b & Hb & Hprofit & Hmargin).
  rewrite (run_once_listing_valuated env settings ri re listing w m i Hreach), Hb.
  unfold below_thresholds. rewrite Hprofit, Hmargin. cbn [F.ltb SFltb SFcompare orb].
  destruct (format_message_ok env settings listing b title url Htitle Hurl) as [message Hmsg].
  destruct (notify_and_mark_spec env settings listing m i b w message Hmsg)
    as (w' & Hrun & Hsend & _ & _ & Hseen).
  exists w'. repeat split; assumption.
Qed.

End CycleEdges.

Lemma unidentified_listing_witness :
  run_once_listing silent_env default_settings None None anonymous_listing empty_world
  = (Ok tt, empty_world)
  /\ run_once_listing silent_env default_settings None None test_listing empty_world
     = (Raise (KeyError "marketplace"), empty_world).
Proof.
  destruct (unidentified_listing silent_env default_settings None None anonymous_listing
              empty_world) as (Hskip & _ & _).
  destruct (unidentified_listing silent_env default_settings None None test_listing
              empty_world) as (_ & Hkey & _).
  split.
  - apply (Hskip (VStr "ebay") VNone); reflexivity.
  - apply Hkey. reflexivity.
Defined.

(** [good_listing] goes through a cycle's loop body on a machine without
    a database file. *)
Lemma good_listing_processed :
  exists w1,
    run_once_listing silent_env default_settings None None good_listing
      (open_store default_settings empty_host) = (Ok tt, w1).
Proof. eexists. vm_compute. reflexivity. Qed.

Lemma processed_listing_never_again_witness :
  exists w1,
    run_once_listing silent_env default_settings None None good_listing
      (open_store default_settings empty_host) = (Ok tt, w1)
    /\ (let w2 :=
          (run_once_listings silent_env default_settings None None [cheap_listing] w1).2 in
        let w3 :=
          open_store default_settings
            (run_cycles silent_env [demanding_settings; other_db_settings]
               (close_store default_settings empty_host w2)) in
        run_once_listing silent_env default_settings None None good_listing w3 = (Ok tt, w3)).
Proof.
  destruct good_listing_processed as [w1 Hrun]. exists w1.
  destruct (processed_listing_never_again silent_env default_settings None None
              good_listing empty_host w1 "ebay" "dry1" eq_refl
              good_listing_reaches_valuation Hrun) as (_ & Hcycles).
  split; [exact Hrun|].
  exact (Hcycles [cheap_listing] [demanding_settings; other_db_settings]
           default_settings None None eq_refl).
Defined.

Lemma invalid_regex_stops_before_fetch_witness :
  run_once picky_env filter_settings empty_world = (Raise (OtherError "re.error"), empty_world).
Proof.
  apply (invalid_regex_stops_before_fetch picky_env filter_settings None empty_world).
  left. split; reflexivity.
Defined.

Lemma fetcher_failure_isolated_witness :
  (run_once flaky_env both_settings empty_world).1 = Ok tt
  /\ SeenStore.has_seen (seen (run_once flaky_env both_settings empty_world).2) "vinted" "77"
     = true
  /\ count is_fetch (trace (run_once flaky_env both_settings empty_world).2) = 2.
Proof.
  rewrite (fetcher_failure_isolated flaky_env both_settings None None empty_world
             (OtherError "boom")) by reflexivity.
  vm_compute. repeat split; reflexivity.
Defined.

Lemma infinite_price_is_notified_witness :
  exists w',
    run_once_listing silent_env default_settings None None infinite_listing empty_world
    = (Ok tt, w')
    /\ count is_send (trace w') = 1
    /\ SeenStore.has_seen (seen w') "ebay" "inf1" = true.
Proof.
  apply (infinite_price_is_notified silent_env default_settings None None infinite_listing
           empty_world "ebay" "inf1" (VStr "Priceless putter") (VStr "https://example.com/item"));
    try reflexivity.
  - constructor; first [reflexivity | discriminate].
  - right. reflexivity.
Defined.

(** ** Loading the configuration *)

Section SettingsFacts.

Context (env : Env) (getenv : string -> option string) (int_of_str : string -> option Z).

Lemma float_or_truthy o dflt : F.truthy dflt = true -> F.truthy (float_or o dflt) = true.
Proof.
  intros Hd. unfold float_or. destruct o as [x|]; [|exact Hd].
  destruct (F.truthy x) eqn:Hx; [exact Hx|exact Hd].
Qed.

(** X23.  The thresholds cannot be switched off: whatever the process
    environment holds, [PROFIT_MIN] and [MARGIN_MIN_PERCENT] of the
    loaded settings are never zero; a variable that reads as zero gives
    the defaults 10.0 and 20.0. *)
Theorem thresholds_never_zero :
  let settings := get_settings env getenv int_of_str in
  F.truthy (PROFIT_MIN settings) = true
  /\ F.truthy (MARGIN_MIN_PERCENT settings) = true
  /\ (forall x, _env_float env getenv "PROFIT_MIN" (Some (F.of_Z 10)) = Some x ->
                F.truthy x = false -> PROFIT_MIN settings = F.of_Z 10)
  /\ (forall x, _env_float env getenv "MARGIN_MIN_PERCENT" (Some (F.of_Z 20)) = Some x ->
                F.truthy x = false -> MARGIN_MIN_PERCENT settings = F.of_Z 20).
Proof.
  cbn [get_settings PROFIT_MIN MARGIN_MIN_PERCENT]. repeat split.
  - apply float_or_truthy. reflexivity.
  - apply float_or_truthy. reflexivity.
  - intros x Hx Hzero. rewrite Hx. unfold float_or. rewrite Hzero. reflexivity.
  - intros x Hx Hzero. rewrite Hx. unfold float_or. rewrite Hzero. reflexivity.
Qed.

(** The worker never spins: for every process environment the
    pause between two cycles is at least 60 seconds, and it is
    [POLL_INTERVAL] minutes as soon as that is one or more. *)
Theorem interval_at_least_a_minute :
  let settings := get_settings env getenv int_of_str in
  (60 <= interval_seconds settings)%Z
  /\ ((1 <= POLL_INTERVAL settings)%Z ->
      interval_seconds settings = (POLL_INTERVAL settings * 60)%Z).
Proof.
  cbv zeta. unfold interval_seconds. split; [lia|]. intros Hpos. lia.
Qed.

End SettingsFacts.

Lemma str_lstrip_map f s :
  (forall c, is_space (f c) = is_space c) ->
  str_lstrip (str_map f s) = str_map f (str_lstrip s).
Proof.
  intros Hf. induction s as [|a s IH]; [reflexivity|].
  simpl. rewrite Hf. destruct (is_space a); [exact IH|reflexivity].
Qed.

Lemma str_rev_app_map f s1 s2 :
  String.rev_app (str_map f s1) (str_map f s2) = str_map f (String.rev_app s1 s2).
Proof.
  revert s2. induction s1 as [|a s1 IH]; intros s2; [reflexivity|].
  simpl. rewrite <- IH. reflexivity.
Qed.

Lemma str_rev_map f s : String.rev (str_map f s) = str_map f (String.rev s).
Proof. exact (str_rev_app_map f s ""). Qed.

Lemma str_strip_map f s :
  (forall c, is_space (f c) = is_space c) ->
  str_strip (str_map f s) = str_map f (str_strip s).
Proof.
  intros Hf. unfold str_strip.
  rewrite (str_lstrip_map f s Hf), str_rev_map, (str_lstrip_map f _ Hf), str_rev_map.
  reflexivity.
Qed.

Lemma is_space_upper c : is_space (ascii_upper c) = is_space c.
Proof. destruct c as [[] [] [] [] [] [] [] []]; reflexivity. Qed.

(** X24.  A boolean variable is read without regard to the case of
    ASCII text: "TRUE", "True" and "true" enable alike, and so for every
    value written in ASCII, its upper-case form is read as the value
    itself. *)
Theorem env_bool_ignores_case (name value : string) (dflt : bool) :
  str_isascii value = true ->
  _env_bool (fun _ => Some (str_upper value)) name dflt
  = _env_bool (fun _ => Some value) name dflt.
Proof.
  intros _. unfold _env_bool, str_upper, str_lower.
  rewrite (str_strip_map ascii_upper value is_space_upper), str_map_map.
  rewrite (str_map_ext _ ascii_lower (str_strip value) ascii_lower_upper). reflexivity.
Qed.

Lemma env_bool_ignores_case_witness :
  _env_bool (fun _ => Some (str_upper " Yes ")) "ENABLE_EBAY" false
  = _env_bool (fun _ => Some " Yes ") "ENABLE_EBAY" false.
Proof.
  apply (env_bool_ignores_case "ENABLE_EBAY" " Yes " false). reflexivity.
Defined.

Lemma thresholds_never_zero_witness :
  PROFIT_MIN (get_settings zero_env zero_thresholds (fun _ => None)) = F.of_Z 10
  /\ MARGIN_MIN_PERCENT (get_settings zero_env zero_thresholds (fun _ => None)) = F.of_Z 20.
Proof.
  destruct (thresholds_never_zero zero_env zero_thresholds (fun _ => None))
    as (_ & _ & Hprofit & Hmargin).
  split.
  - apply (Hprofit F.zero); reflexivity.
  - apply (Hmargin F.zero); reflexivity.
Defined.

Lemma interval_at_least_a_minute_witness :
  interval_seconds (get_settings silent_env (fun _ => Some "0") (fun _ => Some 0%Z)) = 60%Z
  /\ interval_seconds (get_settings silent_env (fun _ => None) (fun _ => None)) = 300%Z.
Proof.
  split; [reflexivity|].
  apply (interval_at_least_a_minute silent_env (fun _ => None) (fun _ => None)).
  vm_compute. discriminate.
Defined.

(** ** The fetchers: what a listing built from a response looks like *)

Section FetcherFacts.

Context (env : Env) (json_repr : Json -> string).

Ltac res_inv H :=
  repeat match type of H with
         | res_bind ?r _ = Ok _ =>
             let E := fresh "E" in
             destruct r eqn:E; cbn [res_bind] in H; [|discriminate H]
         end.

Lemma float_if_truthy_result v r :
  float_if_truthy env v = Ok r ->
  (j_truthy v = false /\ r = JNull) \/ (j_truthy v = true /\ exists x, r = JFloat x).
Proof.
  unfold float_if_truthy. destruct (j_truthy v).
  - intros H. res_inv H. injection H as <-. right. eauto.
  - intros [= <-]. left. split; reflexivity.
Qed.

Lemma float_if_set_result v r :
  float_if_set env v = Ok r -> r = JNull \/ exists x, r = JFloat x.
Proof.
  unfold float_if_set. destruct v; intros H;
    first [injection H as <-; left; reflexivity | res_inv H; injection H as <-; right; eauto].
Qed.

(** X26.  Whatever the item summary holds, a listing that
    [EbayFetcher._simplify_item] returns has the eleven keys of a listing
    and no other, its marketplace is "ebay", and its price and shipping
    cost are each [None] or a float, never a string. *)
Theorem ebay_listing_shape (item : Json) (raw : gmap string Json) :
  ebay_simplify_item env item = Ok raw ->
  dom raw = listing_keys
  /\ raw !! "marketplace" = Some (JStr "ebay")
  /\ (raw !! "price" = Some JNull \/ exists x, raw !! "price" = Some (JFloat x))
  /\ (raw !! "shipping_cost" = Some JNull
      \/ exists x, raw !! "shipping_cost" = Some (JFloat x)).
Proof.
  unfold ebay_simplify_item. intros H. res_inv H. injection H as <-.
  split; [|split; [|split]].
  - rewrite !dom_insert_L, dom_singleton_L. unfold listing_keys. cbn [list_to_set foldr].
    set_solver.
  - reflexivity.
  - change (Some a9 = Some JNull \/ exists x, Some a9 = Some (JFloat x)).
    apply float_if_truthy_result in E9 as [[_ ->] | [_ [x ->]]]; eauto.
  - change (Some a1 = Some JNull \/ exists x, Some a1 = Some (JFloat x)).
    destruct (j_truthy a0).
    + res_inv E1. apply float_if_truthy_result in E1 as [[_ ->] | [_ [x ->]]]; eauto.
    + injection E1 as <-. eauto.
Qed.

End FetcherFacts.

Section FetcherFlow.

Context (env : Env) (json_repr : Json -> string).

Ltac res_inv H :=
  repeat match type of H with
         | res_bind ?r _ = Ok _ =>
             let E := fresh "E" in
             destruct r eqn:E; cbn [res_bind] in H; [|discriminate H]
         end.

Lemma ebay_price_of_value item raw price_info value :
  ebay_simplify_item env item = Ok raw ->
  j_get item "price" (JObj ∅) = Ok price_info ->
  j_get price_info "value" JNull = Ok value ->
  exists price, float_if_truthy env value = Ok price /\ raw !! "price" = Some price.
Proof.
  unfold ebay_simplify_item. intros H Hinfo Hvalue. rewrite Hinfo in H. cbn [res_bind] in H.
  res_inv H. injection H as <-. injection Hvalue as <-.
  exists a8. split; [exact E8|reflexivity].
Qed.

(** X27.  From the fetcher to the valuation: when the item summary of
    eBay carries no price value (none, null, zero or an empty string),
    the listing that [_simplify_item] builds binds [price] to [None], and
    [compute_profit] raises [TypeError] on that listing under every
    configuration. *)
Theorem ebay_unpriced_item_breaks_valuation
    (item price_info value : Json) (listing : Dict) (settings : Settings) :
  ebay_simplify_item env item = Ok (of_py <$> listing) ->
  j_get item "price" (JObj ∅) = Ok price_info ->
  j_get price_info "value" JNull = Ok value ->
  j_truthy value = false ->
  listing !! "price" = Some VNone
  /\ compute_profit env listing settings = Raise TypeError.
Proof.
  intros Hitem Hinfo Hvalue Hfalsy.
  destruct (ebay_price_of_value item _ price_info value Hitem Hinfo Hvalue)
    as (price & Hprice & Hraw).
  unfold float_if_truthy in Hprice. rewrite Hfalsy in Hprice. injection Hprice as <-.
  rewrite lookup_fmap in Hraw.
  assert (Hnone : listing !! "price" = Some VNone).
  { destruct (listing !! "price") as [[| x | s]|]; simpl in Hraw; congruence. }
  split; [exact Hnone|]. apply compute_profit_null_price. exact Hnone.
Qed.

(** X28.  A Vinted item without an [id] is not without an identifier:
    [_simplify_item] gives it the listing id "None", the text of
    [str(None)], which is not empty, so that every such item is told
    apart from no other and passes the identifier check of the cycle. *)
Theorem vinted_missing_id_is_None
    (region : string) (item : Json) (raw : gmap string Json) :
  vinted_simplify_item env json_repr region item = Ok raw ->
  j_get item "id" JNull = Ok JNull ->
  raw !! "marketplace" = Some (JStr "vinted")
  /\ raw !! "listing_id" = Some (JStr "None")
  /\ truthy (VStr "None") = true
  /\ raw !! "url" = Some (JStr ("https://www.vinted." ++ region ++ "/items/None")).
Proof.
  unfold vinted_simplify_item. intros H Hid. res_inv H. injection H as <-.
  injection Hid as ->. repeat split; reflexivity.
Qed.



End FetcherFlow.

(** The listing that [unpriced_item] becomes. *)
Lemma unpriced_item_listing :
  ebay_simplify_item silent_env unpriced_item = Ok (of_py <$> unpriced_listing).
Proof. vm_compute. reflexivity. Qed.

Lemma ebay_unpriced_item_breaks_valuation_witness :
  compute_profit silent_env unpriced_listing default_settings = Raise TypeError.
Proof.
  apply (ebay_unpriced_item_breaks_valuation silent_env unpriced_item
           (JObj {[ "currency" := JStr "GBP" ]}) JNull unpriced_listing default_settings).
  - exact unpriced_item_listing.
  - reflexivity.
  - reflexivity.
  - reflexivity.
Defined.

Lemma ebay_listing_shape_witness :
  dom (of_py <$> unpriced_listing) = listing_keys
  /\ (of_py <$> unpriced_listing) !! "marketplace" = Some (JStr "ebay").
Proof.
  destruct (ebay_listing_shape silent_env unpriced_item (of_py <$> unpriced_listing)
              unpriced_item_listing) as (Hdom & Hmarket & _).
  split; assumption.
Defined.

(** Items without an [id] are simplified without an exception. *)
Lemma nameless_item_simplified (title : string) :
  exists raw,
    vinted_simplify_item silent_env (fun _ => "?") "uk" (nameless_item title) = Ok raw.
Proof.
  assert (H : match vinted_simplify_item silent_env (fun _ => "?") "uk" (nameless_item title) with
              | Ok _ => true
              | Raise _ => false
              end = true) by (vm_compute; reflexivity).
  destruct (vinted_simplify_item _ _ _ _) as [raw|e]; [eauto|discriminate H].
Qed.

Lemma vinted_missing_id_is_None_witness :
  exists raw1 raw2,
    vinted_simplify_item silent_env (fun _ => "?") "uk" (nameless_item "Putter") = Ok raw1
    /\ vinted_simplify_item silent_env (fun _ => "?") "uk" (nameless_item "Wedge") = Ok raw2
    /\ raw1 !! "listing_id" = Some (JStr "None")
    /\ raw2 !! "listing_id" = Some (JStr "None").
Proof.
  destruct (nameless_item_simplified "Putter") as [raw1 H1].
  destruct (nameless_item_simplified "Wedge") as [raw2 H2].
  exists raw1, raw2. split; [exact H1|]. split; [exact H2|]. split.
  - exact (proj1 (proj2 (vinted_missing_id_is_None silent_env (fun _ => "?") "uk"
                           (nameless_item "Putter") raw1 H1 eq_refl))).
  - exact (proj1 (proj2 (vinted_missing_id_is_None silent_env (fun _ => "?") "uk"
                           (nameless_item "Wedge") raw2 H2 eq_refl))).
Defined.


(** ** The dry run *)

Section DryRunFacts.

Context (env : Env) {Response : Type} (JSONResponse : DryRunContent -> Res Response).

Lemma compute_profit_returns listing settings :
  sample_ready listing ->
  str_upper (VALUATION_STRATEGY settings) = "A"
  \/ str_upper (VALUATION_STRATEGY settings) = "B"
  \/ str_upper (VALUATION_STRATEGY settings) = "C" ->
  exists b, compute_profit env listing settings = Ok b.
Proof.
  intros ([p Hp] & Hship & Hbrand & Hmodel & _) Hknown.
  destruct (lookup_shipping_cost_total env listing settings Hship) as [shipping Hlook].
  destruct (estimate_resale_value_priced listing settings p Hp Hbrand Hmodel)
    as [[r Hr] | (HA & HB & HC & _)].
  - unfold compute_profit, dict_get_or. rewrite Hp. cbn [default py_float res_bind].
    rewrite Hlook, Hr. cbn [res_bind]. destruct r; eexists; reflexivity.
  - destruct Hknown as [H | [H | H]]; contradiction.
Qed.

Lemma dry_run_entry_returns settings k listing :
  sample_ready listing ->
  str_upper (VALUATION_STRATEGY settings) = "A"
  \/ str_upper (VALUATION_STRATEGY settings) = "B"
  \/ str_upper (VALUATION_STRATEGY settings) = "C" ->
  exists entry, dry_run_entry env settings k listing = Ok entry.
Proof.
  intros Hready Hknown.
  destruct (compute_profit_returns listing settings Hready Hknown) as [b Hb].
  destruct Hready as (_ & _ & _ & _ & [m Hm] & [i Hi] & [t Ht] & [u Hu]).
  destruct (format_message_ok env settings listing b t u Ht Hu) as [message Hmsg].
  unfold dry_run_entry, getitem. rewrite Hb. cbn [res_bind]. rewrite Hmsg. cbn [res_bind].
  rewrite Hm, Hi, Ht, Hu. cbn [res_bind]. eexists. reflexivity.
Qed.

Lemma dry_run_loop_returns settings samples :
  Forall sample_ready samples ->
  str_upper (VALUATION_STRATEGY settings) = "A"
  \/ str_upper (VALUATION_STRATEGY settings) = "B"
  \/ str_upper (VALUATION_STRATEGY settings) = "C" ->
  forall k, exists results, dry_run_loop env settings k samples = Ok results.
Proof.
  intros Hready Hknown.
  induction Hready as [|listing rest Hlisting _ IH]; intros k; simpl; [eauto|].
  destruct (dry_run_entry_returns settings k listing Hlisting Hknown) as [entry ->].
  cbn [res_bind]. destruct (_ && _); [eauto|].
  destruct (IH (S k)) as [more ->]. cbn [res_bind]. eauto.
Qed.

Lemma dry_run_samples_ready : Forall sample_ready dry_run_samples.
Proof.
  repeat constructor; simpl; eauto.
Qed.

(** X30.  The dry run always responds with the first sample.  Under a
    known strategy the content it hands to [JSONResponse] is the message
    and payload of the first hard-wired sample, whether or not that
    sample meets the thresholds, and never the notice that nothing is
    profitable: the response, or the exception, is what [JSONResponse]
    makes of that content.  Under an unknown strategy the exception of
    the valuation leaves [dry_run] before any response is built. *)
Theorem dry_run_responds_with_first_sample
    (settings : Settings) (first : Dict) (rest : list Dict) :
  dry_run_samples = first :: rest ->
  let strategy := str_upper (VALUATION_STRATEGY settings) in
  (strategy = "A" \/ strategy = "B" \/ strategy = "C" ->
   exists entry,
     dry_run_entry env settings 0 first = Ok entry
     /\ dry_run env JSONResponse settings = JSONResponse (FirstResult entry.1))
  /\ (strategy <> "A" -> strategy <> "B" -> strategy <> "C" ->
      dry_run env JSONResponse settings
      = Raise (ValueError ("Unknown valuation strategy: " ++ strategy))).
Proof.
  intros Hsamples strategy. subst strategy.
  pose proof dry_run_samples_ready as Hready. rewrite Hsamples in Hready.
  apply Forall_cons in Hready as [Hfirst Hrest].
  unfold dry_run. rewrite Hsamples. cbn [dry_run_loop]. split.
  - intros Hknown.
    destruct (dry_run_entry_returns settings 0 first Hfirst Hknown) as [entry Hentry].
    exists entry. split; [exact Hentry|]. rewrite Hentry. cbn [res_bind].
    destruct (_ && _); [reflexivity|].
    destruct (dry_run_loop_returns settings rest Hrest Hknown 1) as [more ->].
    reflexivity.
  - intros HA HB HC.
    destruct Hfirst as ([p Hp] & Hship & _).
    unfold dry_run_entry.
    rewrite (compute_profit_unknown env first settings p HA HB HC Hp Hship). reflexivity.
Qed.

End DryRunFacts.

(** The first sample under [demanding_settings]: its profit of 42 is
    below the threshold of 1000. *)
Lemma first_sample_below_thresholds first rest entry :
  dry_run_samples = first :: rest ->
  dry_run_entry silent_env demanding_settings 0 first = Ok entry ->
  dr_payload entry.1 !! "listing_id" = Some (VStr "dry1")
  /\ dr_payload entry.1 !! "profit" = Some (VFloat (F.of_Z 42))
  /\ exists b, compute_profit silent_env first demanding_settings = Ok b
               /\ below_thresholds demanding_settings b = true.
Proof.
  intros Hsamples Hentry.
  assert (Hfirst : first = hd ∅ dry_run_samples) by (rewrite Hsamples; reflexivity).
  rewrite Hfirst in Hentry |- *. clear Hsamples Hfirst.
  assert (Hid : (let! e := dry_run_entry silent_env demanding_settings 0 (hd ∅ dry_run_samples) in
                 Ok (dr_payload e.1 !! "listing_id")) = Ok (Some (VStr "dry1")))
    by (vm_compute; reflexivity).
  assert (Hprofit : (let! e := dry_run_entry silent_env demanding_settings 0 (hd ∅ dry_run_samples) in
                     Ok (dr_payload e.1 !! "profit")) = Ok (Some (VFloat (F.of_Z 42))))
    by (vm_compute; reflexivity).
  assert (Hbelow : (let! b := compute_profit silent_env (hd ∅ dry_run_samples) demanding_settings in
                    Ok (below_thresholds demanding_settings b)) = Ok true)
    by (vm_compute; reflexivity).
  rewrite Hentry in Hid, Hprofit. cbn [res_bind] in Hid, Hprofit.
  injection Hid as Hid. injection Hprofit as Hprofit.
  split; [exact Hid|]. split; [exact Hprofit|].
  destruct (compute_profit silent_env (hd ∅ dry_run_samples) demanding_settings) as [b|e];
    [|discriminate Hbelow].
  cbn [res_bind] in Hbelow. injection Hbelow as Hbelow.
  exists b. split; [reflexivity|exact Hbelow].
Qed.

Lemma dry_run_responds_with_first_sample_witness :
  exists first rest entry,
    dry_run_samples = first :: rest
    /\ dry_run_entry silent_env demanding_settings 0 first = Ok entry
    /\ dry_run silent_env refusing_response demanding_settings
       = refusing_response (FirstResult entry.1)
    /\ dr_payload entry.1 !! "listing_id" = Some (VStr "dry1")
    /\ dr_payload entry.1 !! "profit" = Some (VFloat (F.of_Z 42))
    /\ exists b, compute_profit silent_env first demanding_settings = Ok b
                 /\ below_thresholds demanding_settings b = true.
Proof.
  destruct dry_run_samples as [|first rest] eqn:Hsamples; [discriminate Hsamples|].
  destruct (dry_run_responds_with_first_sample silent_env refusing_response
              demanding_settings first rest Hsamples) as [Hknown _].
  destruct Hknown as (entry & Hentry & Hrun); [right; left; reflexivity|].
  exists first, rest, entry. split; [reflexivity|]. split; [exact Hentry|].
  split; [exact Hrun|].
  exact (first_sample_below_thresholds first rest entry Hsamples Hentry).
Defined.

Lemma lookup_shipping_cost_failures_witness :
  lookup_shipping_cost silent_env odd_shipping_listing default_settings
  = Raise (ValueError "could not convert string to float").
Proof.
  apply (lookup_shipping_cost_failures silent_env odd_shipping_listing default_settings).
  exists "free". repeat split; reflexivity.
Defined.

Lemma zero_total_cost_zero_margin_witness :
  exists b,
    compute_profit silent_env free_listing default_settings = Ok b
    /\ margin_percent b = F.zero
    /\ profit b = F.zero.
Proof.
  destruct (zero_total_cost_zero_margin silent_env free_listing default_settings
              F.zero F.zero None) as (b & Hb & Hmargin & Hprofit);
    try reflexivity.
  exists b. split; [exact Hb|]. split; [exact Hmargin|].
  rewrite Hprofit. vm_compute. reflexivity.
Defined.

Lemma compute_profit_failures_witness :
  compute_profit silent_env unpriced_listing odd_settings = Raise TypeError.
Proof.
  apply (compute_profit_failures silent_env unpriced_listing odd_settings TypeError);
    try exact I.
  left. split; reflexivity.
Defined.

(** X25.  A listing without the key [price] is valued at 0.0 and is
    never profitable: whenever its shipping cost resolves,
    [compute_profit] returns with product cost, buyer protection, resale
    value, profit and margin all 0.0, under every strategy value, a
    recognized one or not. *)
Theorem absent_price_counts_as_zero
    (env : Env) (listing : Dict) (settings : Settings) (shipping : option float) :
  listing !! "price" = None ->
  lookup_shipping_cost env listing settings = Ok shipping ->
  exists b,
    compute_profit env listing settings = Ok b
    /\ product_cost b = F.zero /\ buyer_protection_cost b = F.zero
    /\ potential_resale_value b = F.zero
    /\ profit b = F.zero /\ margin_percent b = F.zero
    /\ shipping_cost b = match shipping with Some s => F.round2 s | None => F.zero end.
Proof.
  intros Hprice Hship.
  unfold compute_profit, estimate_resale_value, dict_get_or, dict_get.
  rewrite Hprice, Hship. cbn [default py_float res_bind].
  eexists. split; [reflexivity|]. repeat split; reflexivity.
Qed.

Lemma absent_price_counts_as_zero_witness :
  exists b,
    compute_profit silent_env priceless_listing odd_settings = Ok b
    /\ product_cost b = F.zero /\ profit b = F.zero /\ margin_percent b = F.zero.
Proof.
  destruct (absent_price_counts_as_zero silent_env priceless_listing odd_settings
              (Some (F.round2 (F.of_Z 5)))) as (b & Hb & Hcost & _ & _ & Hprofit & Hmargin & _);
    try reflexivity.
  exists b. repeat split; assumption.
Defined.
